(** * InsightIQ: the summarisation and quiz pipeline, shallowly embedded

    Sources: [src/summarizer.py] (chunk_text, _call_gemini_api,
    generate_summary) and [src/quizgenerator.py] (_call_gemini_api_structured,
    create_quiz_from_text).

    Python strings are modelled as Stdlib [string] (sequences of ASCII
    characters); offsets and lengths are [Z] so that Python's negative
    indices can be written out. *)

From Stdlib Require Import ZArith String Ascii List Bool Lia.
Import ListNotations.
Open Scope string_scope.
Open Scope Z_scope.
Set Warnings "-register-all".


(* ------------------------------------------------------------------ *)
(** ** Python string primitives *)

Module Py.

(** [len(s)] *)
Definition len (s : string) : Z := Z.of_nat (String.length s).

(** [str.isspace()] on one ASCII character: \t \n \v \f \r, the four
    separators \x1c-\x1f and the space. *)
Definition isspace (c : ascii) : bool :=
  let n := Z.of_nat (nat_of_ascii c) in
  ((9 <=? n) && (n <=? 13)) || ((28 <=? n) && (n <=? 32)).

Fixpoint lstrip (s : string) : string :=
  match s with
  | EmptyString => EmptyString
  | String c r => if isspace c then lstrip r else s
  end.

Definition rstrip (s : string) : string :=
  string_of_list_ascii
    (rev (list_ascii_of_string (lstrip (string_of_list_ascii
      (rev (list_ascii_of_string s)))))).

(** [s.strip()] *)
Definition strip (s : string) : string := rstrip (lstrip s).

(** Truthiness of a [str]: non-empty. *)
Definition str_truthy (s : string) : bool :=
  match s with EmptyString => false | _ => true end.

(** Index normalisation of slices and of [find]/[rfind] bounds
    (CPython's ADJUST_INDICES): a negative index counts from the end and is
    clamped at 0, a too large one is clamped at [len]. *)
Definition adjust (n i : Z) : Z :=
  if i <? 0 then Z.max 0 (i + n) else Z.min i n.

(** [s[a:b]] *)
Definition slice (s : string) (a b : Z) : string :=
  let n := len s in
  let a' := adjust n a in
  let b' := adjust n b in
  if a' <? b' then substring (Z.to_nat a') (Z.to_nat (b' - a')) s
  else EmptyString.

(** Last position of [c] in [s], if any. *)
Fixpoint last_index (c : ascii) (s : string) : option nat :=
  match s with
  | EmptyString => None
  | String d r =>
      match last_index c r with
      | Some i => Some (S i)
      | None => if Ascii.eqb c d then Some O else None
      end
  end.

(** [s.rfind(c, a, b)] for a one-character needle [c]. *)
Definition rfind (c : ascii) (s : string) (a b : Z) : Z :=
  let n := len s in
  let a' := adjust n a in
  let b' := adjust n b in
  if a' <? b' then
    match last_index c (substring (Z.to_nat a') (Z.to_nat (b' - a')) s) with
    | Some i => a' + Z.of_nat i
    | None => -1
    end
  else -1.

End Py.

(* ------------------------------------------------------------------ *)
(** ** [chunk_text] (summarizer.py, lines 66-92) *)

Module Chunk.

Definition CHUNK_SIZE : Z := 15000.
Definition CHUNK_OVERLAP : Z := 1000.

Definition period : ascii := "."%char.
Definition newline : ascii := "010"%char.

(** Lines 73-83: the end offset of the span that starts at [start]. *)
Definition span_end (text : string) (max_chunk_size overlap start : Z) : Z :=
  let L := Py.len text in
  let end0 := Z.min (start + max_chunk_size) L in
  if end0 <? L then
    let last_period := Py.rfind period text start end0 in
    let last_newline := Py.rfind newline text start end0 in
    let break_point := Z.max last_period last_newline in
    if start + max_chunk_size - overlap <? break_point then break_point + 1
    else end0
  else end0.

(** Line 90: the next start offset. *)
Definition next_start (text : string) (overlap end_ : Z) : Z :=
  if end_ <? Py.len text then end_ - overlap else Py.len text.

(** The [while start < len(text)] loop, run for at most [fuel] iterations.
    It returns the list of spans [(start, end)] it computed, in order, or
    [None] when the loop has not left after [fuel] iterations. *)
Fixpoint loop (fuel : nat) (text : string) (max_chunk_size overlap start : Z)
  : option (list (Z * Z)) :=
  if start <? Py.len text then
    match fuel with
    | O => None
    | S fuel' =>
        let end_ := span_end text max_chunk_size overlap start in
        match loop fuel' text max_chunk_size overlap (next_start text overlap end_) with
        | Some spans => Some ((start, end_) :: spans)
        | None => None
        end
    end
  else Some [].

(** Lines 85-87: each span is sliced and stripped, and kept when non-empty. *)
Definition chunks_of_spans (text : string) (spans : list (Z * Z)) : list string :=
  filter Py.str_truthy (map (fun '(s, e) => Py.strip (Py.slice text s e)) spans).

(** [chunk_text(text, max_chunk_size, overlap)] with the loop bounded by
    [fuel]; [None] means the loop did not finish within [fuel] iterations. *)
Definition chunk_text_fuel (fuel : nat) (text : string) (max_chunk_size overlap : Z)
  : option (list string) :=
  option_map (chunks_of_spans text) (loop fuel text max_chunk_size overlap 0).

(** [chunk_text(text)] with the default parameters, as [generate_summary]
    calls it.  At the defaults the loop leaves within [len(text)]
    iterations ([ChunkFacts.chunk_text_defaults_finishes]), so the [None]
    branch is never taken. *)
Definition chunk_text_defaults (text : string) : list string :=
  match chunk_text_fuel (S (String.length text)) text CHUNK_SIZE CHUNK_OVERLAP with
  | Some chunks => chunks
  | None => []
  end.

End Chunk.

(* ------------------------------------------------------------------ *)
(** ** JSON values, Python exceptions and the primitives the code uses on them *)

Module Data.

(** Values produced by [json.loads] / [response.json()].  Numbers are
    integers (no claim here involves floats); an object keeps its keys in
    insertion order, as a Python dict does. *)
Inductive Json : Type :=
| JNull
| JBool (b : bool)
| JNum (n : Z)
| JStr (s : string)
| JArr (l : list Json)
| JObj (kvs : list (string * Json)).

(** The exceptions raised by the two modules, one constructor per raise
    site, plus the built-in ones raised implicitly by subscripting,
    attribute lookup, iteration, decoding, networking and file opening. *)
Inductive Exn : Type :=
| ValueError (msg : string)
| TypeError
| KeyError
| IndexError
| AttributeError
| JSONDecodeError
| ConnectionError
| OSError
(** [raise IOError(f"Failed to save summary to {output_filepath}: {file_error}")] *)
| IOError (path : string) (cause : Exn)
(** [raise Exception(f"<prefix>{response.text}")] after an HTTP error *)
| ApiError (prefix : string) (body : string)
(** [raise Exception(f"<prefix>{e}")] in the [except Exception as e] handlers *)
| Unexpected (prefix : string) (cause : Exn)
(** summarizer.py line 45 *)
| NoCandidates (feedback : Json)
(** quizgenerator.py line 73 *)
| InvalidStructure (block_reason : Json)
(** the [raise] after the retry loop *)
| RetriesExhausted (msg : string).

(** Result of a Python computation: a value or a raised exception. *)
Inductive Res (A : Type) : Type :=
| Ok (a : A)
| Err (e : Exn).
Arguments Ok {A} a.
Arguments Err {A} e.

Definition rbind {A B} (r : Res A) (k : A -> Res B) : Res B :=
  match r with Ok a => k a | Err e => Err e end.

Notation "'let?' x ':=' r 'in' k" := (rbind r (fun x => k))
  (at level 200, x name, r at level 100, k at level 200).

Fixpoint assoc (k : string) (kvs : list (string * Json)) : option Json :=
  match kvs with
  | [] => None
  | (k', v) :: r => if String.eqb k k' then Some v else assoc k r
  end.

(** Assignment [d[k] = v] on a dict: replaces the value of an existing key in
    place, appends a new key at the end. *)
Fixpoint assoc_set (k : string) (v : Json) (kvs : list (string * Json))
  : list (string * Json) :=
  match kvs with
  | [] => [(k, v)]
  | (k', v') :: r => if String.eqb k k' then (k', v) :: r else (k', v') :: assoc_set k v r
  end.

(** Python truthiness. *)
Definition truthy (j : Json) : bool :=
  match j with
  | JNull => false
  | JBool b => b
  | JNum n => negb (n =? 0)
  | JStr s => Py.str_truthy s
  | JArr l => match l with [] => false | _ => true end
  | JObj kvs => match kvs with [] => false | _ => true end
  end.

(** [j.get(k, default)]: only dicts have [get]. *)
Definition dict_get (j : Json) (k : string) (default : Json) : Res Json :=
  match j with
  | JObj kvs => Ok (match assoc k kvs with Some v => v | None => default end)
  | _ => Err AttributeError
  end.

(** [j[k]] with a string key. *)
Definition getitem_key (j : Json) (k : string) : Res Json :=
  match j with
  | JObj kvs => match assoc k kvs with Some v => Ok v | None => Err KeyError end
  | _ => Err TypeError
  end.

(** [j[i]] with an integer index [i >= 0]; a JSON object has only string
    keys, so an integer key is missing. *)
Definition getitem_idx (j : Json) (i : nat) : Res Json :=
  match j with
  | JArr l => match nth_error l i with Some v => Ok v | None => Err IndexError end
  | JStr s => match String.get i s with
              | Some c => Ok (JStr (String c EmptyString))
              | None => Err IndexError
              end
  | JObj _ => Err KeyError
  | _ => Err TypeError
  end.

(** [k in j] for a string [k]: key of a dict, element of a list, substring
    of a string. *)
Definition contains (k : string) (j : Json) : Res bool :=
  match j with
  | JObj kvs => Ok (match assoc k kvs with Some _ => true | None => false end)
  | JArr l => Ok (existsb (fun x => match x with JStr s => String.eqb s k | _ => false end) l)
  | JStr s => Ok (match String.index 0 k s with Some _ => true | None => false end)
  | _ => Err TypeError
  end.

(** [d[k] = v]: item assignment; only a dict accepts a string key. *)
Definition setitem (j : Json) (k : string) (v : Json) : Res Json :=
  match j with
  | JObj kvs => Ok (JObj (assoc_set k v kvs))
  | _ => Err TypeError
  end.

(** The items a [for] loop visits: list elements, the characters of a
    string, the keys of a dict; numbers, booleans and [None] are not
    iterable. *)
Definition py_iter (j : Json) : Res (list Json) :=
  match j with
  | JArr l => Ok l
  | JStr s => Ok (map (fun c => JStr (String c EmptyString)) (list_ascii_of_string s))
  | JObj kvs => Ok (map (fun '(k, _) => JStr k) kvs)
  | _ => Err TypeError
  end.

Definition is_dict (j : Json) : bool :=
  match j with JObj _ => true | _ => false end.

(** [str(n)] for an integer. *)
Fixpoint digits (fuel : nat) (n : Z) (acc : string) : string :=
  match fuel with
  | O => acc
  | S f =>
      let acc' := String (ascii_of_nat (48 + Z.to_nat (n mod 10))) acc in
      if n <? 10 then acc' else digits f (n / 10) acc'
  end.

Definition str_of_int (n : Z) : string :=
  if n <? 0 then String "-" (digits (S (Z.to_nat (Z.log2 (- n)))) (- n) EmptyString)
  else digits (S (Z.to_nat (Z.log2 n))) n EmptyString.

End Data.

(* ------------------------------------------------------------------ *)
(** ** The world the pipeline runs in, and its state/error monad *)

Module Pipeline.
Import Data.

(** The body of one [requests.post]: URL key, persona prompt, query, the
    web-search tool (summarizer only), the response schema and the timeout
    (quiz generator only). *)
Record Request : Type := {
  rq_key : string;
  rq_system : string;
  rq_query : string;
  rq_tools : bool;
  rq_schema : option Json;
  rq_timeout : option Z
}.

(** What [requests.post] gives back: a response, or a transport failure
    (connection error, timeout) raised by [post] itself. *)
Inductive PostResult : Type :=
| Response (status : Z) (text : string)
| TransportFailure.

(** Observable state: the requests sent, the [time.sleep] delays, the
    invoker calls made (ghost: one entry per call of [_call_gemini_api] or
    [_call_gemini_api_structured], with its prompt and query) and the file
    system. *)
Record World : Type := {
  posts : list Request;
  sleeps : list Z;
  calls : list (string * string);
  files : string -> option string
}.

Definition M (A : Type) : Type := World -> Res A * World.

Definition ret {A} (a : A) : M A := fun w => (Ok a, w).
Definition raise {A} (e : Exn) : M A := fun w => (Err e, w).
Definition bind {A B} (m : M A) (k : A -> M B) : M B :=
  fun w => match m w with
           | (Ok a, w') => k a w'
           | (Err e, w') => (Err e, w')
           end.
Definition lift {A} (r : Res A) : M A := fun w => (r, w).

Notation "x <- m ;; k" := (bind m (fun x => k))
  (at level 61, m at next level, right associativity).
Notation "m ;;; k" := (bind m (fun _ => k)) (at level 61, right associativity).

Section Program.

(** [json.loads] (also behind [response.json()]): [None] is a
    [JSONDecodeError]. *)
Variable json_loads : string -> option Json.
(** The mocked transport: the response to the [n]-th post of the run. *)
Variable transport : nat -> Request -> PostResult.
(** Whether [open(path, 'w')] succeeds. *)
Variable open_ok : string -> bool.

Definition post (rq : Request) : M PostResult :=
  fun w => (Ok (transport (length (posts w)) rq),
            {| posts := posts w ++ [rq]; sleeps := sleeps w; calls := calls w;
               files := files w |}).

Definition sleep (t : Z) : M unit :=
  fun w => (Ok tt, {| posts := posts w; sleeps := sleeps w ++ [t]; calls := calls w;
                      files := files w |}).

Definition log_call (system_prompt user_query : string) : M unit :=
  fun w => (Ok tt, {| posts := posts w; sleeps := sleeps w;
                      calls := calls w ++ [(system_prompt, user_query)];
                      files := files w |}).

Definition update_file (path contents : string) (fs : string -> option string)
  : string -> option string :=
  fun p => if String.eqb p path then Some contents else fs p.

(** [with open(path, 'w', encoding='utf-8') as f: f.write(data)]: opening
    truncates the file; writing a non-[str] raises [TypeError]. *)
Definition write_file (path : string) (data : Json) : M unit :=
  fun w =>
    if open_ok path then
      let w0 contents := {| posts := posts w; sleeps := sleeps w; calls := calls w;
                            files := update_file path contents (files w) |} in
      match data with
      | JStr s => (Ok tt, w0 s)
      | _ => (Err TypeError, w0 EmptyString)
      end
    else (Err OSError, w).

(* ---------------------------------------------------------------- *)
(** *** The retry loop shared by both invokers *)

Definition max_retries : nat := 3.

(** [response.raise_for_status()] raises for 4xx and 5xx. *)
Definition is_http_error (status : Z) : bool := (400 <=? status) && (status <? 600).

(** Line 53 / 243: [response.status_code == 429 or response.status_code >= 500]. *)
Definition retryable_status (status : Z) : bool := (status =? 429) || (500 <=? status).

(** One iteration of [for attempt in range(max_retries)]: [Some v] is a
    [return v], [None] falls through to the next iteration; [process] is the
    code after [result = response.json()]. *)
Definition attempt_once {A} (process : Json -> Res A) (rq : Request)
    (api_error_prefix unexpected_prefix : string) (attempt : nat) : M (option A) :=
  r <- post rq ;;
  match r with
  | TransportFailure => raise (Unexpected unexpected_prefix ConnectionError)
  | Response status body =>
      if is_http_error status then
        if (Nat.ltb attempt (max_retries - 1)) && retryable_status status then
          sleep (2 ^ Z.of_nat attempt) ;;; ret None
        else raise (ApiError api_error_prefix body)
      else
        match json_loads body with
        | None => raise (Unexpected unexpected_prefix JSONDecodeError)
        | Some result =>
            match process result with
            | Ok a => ret (Some a)
            | Err e => raise (Unexpected unexpected_prefix e)
            end
        end
  end.

(** A response the loop retries on (when attempts are left): an HTTP error
    with status 429 or >= 500. *)
Definition retryable_response (r : PostResult) : bool :=
  match r with
  | Response status _ => is_http_error status && retryable_status status
  | TransportFailure => false
  end.

Fixpoint for_attempts {A} (body : nat -> M (option A)) (attempts : list nat)
    (after : M A) : M A :=
  match attempts with
  | [] => after
  | a :: rest =>
      r <- body a ;;
      match r with
      | Some v => ret v
      | None => for_attempts body rest after
      end
  end.

Definition invoke_with_retries {A} (process : Json -> Res A) (rq : Request)
    (api_error_prefix unexpected_prefix exhausted_msg : string) : M A :=
  for_attempts (attempt_once process rq api_error_prefix unexpected_prefix)
    (seq 0 max_retries) (raise (RetriesExhausted exhausted_msg)).

(* ---------------------------------------------------------------- *)
(** *** [_call_gemini_api] (summarizer.py, lines 14-63) *)

(** Lines 43-48. *)
Definition summary_text_of (result : Json) : Res Json :=
  let? has := contains "candidates" result in
  let? nonempty :=
    (if has then let? c := getitem_key result "candidates" in Ok (truthy c)
     else Ok false) in
  if negb nonempty then
    let? feedback := dict_get result "promptFeedback" (JStr "No detailed feedback.") in
    Err (NoCandidates feedback)
  else
    let? c := getitem_key result "candidates" in
    let? c0 := getitem_idx c 0 in
    let? content := getitem_key c0 "content" in
    let? parts := getitem_key content "parts" in
    let? p0 := getitem_idx parts 0 in
    getitem_key p0 "text".

Definition summary_request (system_prompt user_query api_key : string) : Request :=
  {| rq_key := api_key; rq_system := system_prompt; rq_query := user_query;
     rq_tools := true; rq_schema := None; rq_timeout := None |}.

Definition call_gemini_api (system_prompt user_query api_key : string) : M Json :=
  log_call system_prompt user_query ;;;
  invoke_with_retries summary_text_of (summary_request system_prompt user_query api_key)
    "Failed to generate summary due to API error: "
    "An unexpected error occurred during summary generation: "
    "Failed to generate summary after multiple retries.".

(* ---------------------------------------------------------------- *)
(** *** [_call_gemini_api_structured] (quizgenerator.py, lines 14-88) *)

Definition empty_quiz : Json := JObj [("questions", JArr [])].

(** Lines 49-53: the envelope test; [Some json_string] when it has
    candidates, content and parts, [None] for the [else] branch. *)
Definition structured_payload (result : Json) : Res (option string) :=
  let? cands := dict_get result "candidates" JNull in
  let? has_content :=
    (if truthy cands then
       let? c := getitem_key result "candidates" in
       let? c0 := getitem_idx c 0 in
       let? content := dict_get c0 "content" JNull in
       Ok (truthy content)
     else Ok false) in
  let? has_parts :=
    (if has_content then
       let? c := getitem_key result "candidates" in
       let? c0 := getitem_idx c 0 in
       let? content := getitem_key c0 "content" in
       let? parts := dict_get content "parts" JNull in
       Ok (truthy parts)
     else Ok false) in
  if has_parts then
    let? c := getitem_key result "candidates" in
    let? c0 := getitem_idx c 0 in
    let? content := getitem_key c0 "content" in
    let? parts := getitem_key content "parts" in
    let? p0 := getitem_idx parts 0 in
    let? t := dict_get p0 "text" (JStr "{}") in
    match t with
    | JStr s => Ok (Some (Py.strip s))
    | _ => Err AttributeError
    end
  else Ok None.

(** Lines 61-64: structure consistency. *)
Definition normalize_quiz (parsed : Json) : Json :=
  let parsed := if is_dict parsed then parsed else empty_quiz in
  match parsed with
  | JObj kvs => match assoc "questions" kvs with Some _ => parsed | None => empty_quiz end
  | _ => empty_quiz
  end.

(** Lines 49-73. *)
Definition quiz_of_result (result : Json) : Res Json :=
  let? payload := structured_payload result in
  match payload with
  | Some json_string =>
      match json_loads json_string with
      | None => Ok empty_quiz
      | Some parsed => Ok (normalize_quiz parsed)
      end
  | None =>
      let? pf := dict_get result "promptFeedback" (JObj []) in
      let? reason := dict_get pf "blockReason" (JStr "Unknown reason") in
      Err (InvalidStructure reason)
  end.

Definition structured_request (user_query : string) (schema : Json)
    (system_prompt api_key : string) : Request :=
  {| rq_key := api_key; rq_system := system_prompt; rq_query := user_query;
     rq_tools := false; rq_schema := Some schema; rq_timeout := Some 60 |}.

Definition call_gemini_api_structured (user_query : string) (schema : Json)
    (system_prompt api_key : string) : M Json :=
  log_call system_prompt user_query ;;;
  invoke_with_retries quiz_of_result (structured_request user_query schema system_prompt api_key)
    "Failed to generate quiz due to API error: "
    "An unexpected error occurred during API call: "
    "Failed to generate quiz after multiple retries.".

(* ---------------------------------------------------------------- *)
(** *** [generate_summary] (summarizer.py, lines 95-166) *)

Definition nl : string := String Chunk.newline EmptyString.

(** ["\n\n---\n\n"] *)
Definition segment_separator : string := nl ++ nl ++ "---" ++ nl ++ nl.

Definition segment_system_prompt : string :=
  "You are a segment summarizer. Read the following text chunk from a large document. " ++
  "Generate a detailed, stand-alone summary for this chunk, retaining all key concepts. " ++
  "The summary must be precise and objective. Do not introduce yourself.".

Definition final_system_prompt : string :=
  "You are an expert academic assistant. Analyze the provided text from the document " ++
  "and generate a comprehensive, clear, and professional summary suitable for study or analysis. " ++
  "The summary must be approximately 300 words and focus on key arguments, findings, and conclusions. " ++
  "Format the summary as continuous, readable paragraphs.".

(** Line 128: [f"Summarize this segment:\n\n---\n\n{chunk}"]. *)
Definition segment_user_query (chunk : string) : string :=
  "Summarize this segment:" ++ segment_separator ++ chunk.

(** Lines 126-132: one invoker call per chunk, in order. *)
Fixpoint summarize_segments (api_key : string) (chunks : list string) : M (list Json) :=
  match chunks with
  | [] => ret []
  | chunk :: rest =>
      segment_summary <- call_gemini_api segment_system_prompt
                           (segment_user_query chunk) api_key ;;
      summaries <- summarize_segments api_key rest ;;
      ret (segment_summary :: summaries)
  end.

Fixpoint strs_of (items : list Json) : Res (list string) :=
  match items with
  | [] => Ok []
  | JStr s :: rest => let? r := strs_of rest in Ok (s :: r)
  | _ :: _ => Err TypeError
  end.

(** [sep.join(items)]: every item must be a [str]. *)
Definition py_join (sep : string) (items : list Json) : Res string :=
  let? strs := strs_of items in Ok (String.concat sep strs).

(** Lines 154-160. *)
Definition save_summary (output_filepath : string) (summary : Json) : M unit :=
  fun w => match write_file output_filepath summary w with
           | (Err e, w') => (Err (IOError output_filepath e), w')
           | r => r
           end.

(** Lines 114-140: the input of the final stage. *)
Definition final_stage_input (text_to_summarize api_key : string) : M string :=
  if Chunk.CHUNK_SIZE <? Py.len text_to_summarize then
    segment_summaries <- summarize_segments api_key
                           (Chunk.chunk_text_defaults text_to_summarize) ;;
    lift (py_join segment_separator segment_summaries)
  else ret text_to_summarize.

(** The outer [try: ... except Exception as e: raise e] re-raises unchanged,
    so it is the identity here. *)
Definition generate_summary (text_to_summarize output_filepath api_key : string) : M Json :=
  if negb (Py.str_truthy api_key) then
    raise (ValueError "Gemini API Key is required for summarization.")
  else
    final_input_text <- final_stage_input text_to_summarize api_key ;;
    summary_result <- call_gemini_api final_system_prompt final_input_text api_key ;;
    save_summary output_filepath summary_result ;;;
    ret summary_result.

(* ---------------------------------------------------------------- *)
(** *** [create_quiz_from_text] (quizgenerator.py, lines 91-164) *)

Definition js_type (t : string) : Json := JObj [("type", JStr t)].

Definition quiz_schema : Json :=
  JObj [("type", JStr "OBJECT");
        ("properties", JObj [("questions", JObj [
          ("type", JStr "ARRAY");
          ("items", JObj [
            ("type", JStr "OBJECT");
            ("properties", JObj [
              ("questionNumber", js_type "INTEGER");
              ("question", js_type "STRING");
              ("imageUrl", js_type "STRING");
              ("answerOptions", JObj [
                ("type", JStr "ARRAY");
                ("items", JObj [
                  ("type", JStr "OBJECT");
                  ("properties", JObj [("text", js_type "STRING");
                                       ("rationale", js_type "STRING");
                                       ("isCorrect", js_type "BOOLEAN")])])]);
              ("hint", js_type "STRING")]);
            ("propertyOrdering", JArr [JStr "questionNumber"; JStr "question";
                                       JStr "imageUrl"; JStr "answerOptions"; JStr "hint"])])])]);
        ("propertyOrdering", JArr [JStr "questions"])].

Definition quiz_system_prompt (num_questions : Z) (difficulty : string) : string :=
  "You are a test generator. Your task is to create exactly **" ++ str_of_int num_questions ++
  "** multiple-choice questions (MCQs) " ++
  "with 4 options each, based *only* on the content provided by the user. " ++
  "The difficulty level for these questions must be **" ++ difficulty ++ "**. " ++
  "Ensure the questions cover key facts, concepts, and conclusions from the text. " ++
  "For each question, provide a detailed rationale for every option and set exactly one option as correct. " ++
  "The questions should test comprehension and critical thinking, not just simple recall. " ++
  "Set the 'imageUrl' property to an empty string. The output MUST strictly follow the provided JSON schema.".

(** Line 153: [f"Generate a quiz based on the following text:\n\n---\n\n{source_content}"]. *)
Definition quiz_user_query (source_content : string) : string :=
  "Generate a quiz based on the following text:" ++ segment_separator ++ source_content.

(** [q['questionNumber'] = i + 1] along the iterated items, numbering from
    [n]. *)
Fixpoint renumber_from (n : Z) (items : list Json) : Res (list Json) :=
  match items with
  | [] => Ok []
  | q :: rest =>
      let? q' := setitem q "questionNumber" (JNum n) in
      let? rest' := renumber_from (n + 1) rest in
      Ok (q' :: rest')
  end.

(** Lines 159-161.  The loop mutates the question dicts in place, so when
    [quiz_data['questions']] is a list, [quiz_data] afterwards holds the
    renumbered dicts at the same positions; [json.loads] builds a fresh
    dict for every object, so no dict is shared between two positions. *)
Definition renumber_questions (quiz_data : Json) : Res Json :=
  let? qs := dict_get quiz_data "questions" (JArr []) in
  let? items := py_iter qs in
  let? items' := renumber_from 1 items in
  match quiz_data, qs with
  | JObj kvs, JArr _ =>
      match assoc "questions" kvs with
      | Some _ => Ok (JObj (assoc_set "questions" (JArr items') kvs))
      | None => Ok quiz_data
      end
  | _, _ => Ok quiz_data
  end.

Definition create_quiz_from_text (source_content : string) (num_questions : Z)
    (difficulty api_key : string) : M Json :=
  if negb (Py.str_truthy (Py.strip source_content)) then
    raise (ValueError "Source content for quiz generation is empty.")
  else if negb (Py.str_truthy api_key) then
    raise (ValueError "Gemini API Key is required for quiz generation.")
  else
    quiz_data <- call_gemini_api_structured (quiz_user_query source_content)
                   quiz_schema (quiz_system_prompt num_questions difficulty) api_key ;;
    lift (renumber_questions quiz_data).

End Program.

End Pipeline.

(* ------------------------------------------------------------------ *)
(** ** Concrete inputs: a small [json.loads] table and mocked transports *)

Module Mock.
Import Data Pipeline.

Definition envelope (payload : string) : Json :=
  JObj [("candidates", JArr [JObj [("content", JObj [("parts", JArr [JObj [("text", JStr payload)]])])]])].

Definition question (n : Z) (text : string) : Json :=
  JObj [("questionNumber", JNum n); ("question", JStr text)].

(** A decoder that knows a few documents and rejects everything else. *)
Definition decode (s : string) : option Json :=
  if String.eqb s "ENV" then Some (envelope "SUMMARY")
  else if String.eqb s "ENV-QUIZ" then Some (envelope "QUIZ")
  else if String.eqb s "ENV-BAD" then Some (envelope "not json")
  else if String.eqb s "ENV-NUM" then Some (envelope "NUM")
  else if String.eqb s "QUIZ" then
    Some (JObj [("questions", JArr [question 3 "a"; question 1 "b"; question 2 "c"])])
  else if String.eqb s "NUM" then Some (JObj [("questions", JNum 5)])
  else None.

(** 429 twice, then 200 with [body]. *)
Definition busy_then (body : string) (n : nat) (_ : Request) : PostResult :=
  match n with
  | O | S O => Response 429 "busy"
  | _ => Response 200 body
  end.

(** 200 with [body] on every post. *)
Definition ok_with (body : string) (_ : nat) (_ : Request) : PostResult :=
  Response 200 body.

Definition w0 : World :=
  {| posts := []; sleeps := []; calls := []; files := fun _ => None |}.

End Mock.

(* ------------------------------------------------------------------ *)
(** ** [extract_text_from_pdf] (pdfreader.py) and the Flask routes
    (app.py) that call the pipeline *)

Module App.
Import Data Pipeline.

(** *** String helpers used by [allowed_file] and [os.path.join] *)

(** [str.lower()] on one character of U+0000..U+00FF: A-Z and
    U+00C0..U+00DE except U+00D7 move 32 code points up; every other
    character of that range is its own lower case. *)
Definition lower_char (c : ascii) : ascii :=
  let n := nat_of_ascii c in
  if (Nat.leb 65 n && Nat.leb n 90) || (Nat.leb 192 n && Nat.leb n 222 && negb (Nat.eqb n 215))
  then ascii_of_nat (n + 32) else c.

(** [s.lower()] *)
Fixpoint lower (s : string) : string :=
  match s with
  | EmptyString => EmptyString
  | String c r => String (lower_char c) (lower r)
  end.

(** [c in s] for a one-character [c]. *)
Fixpoint contains_char (c : ascii) (s : string) : bool :=
  match s with
  | EmptyString => false
  | String d r => Ascii.eqb c d || contains_char c r
  end.

(** [s.rsplit(sep, 1)] for a one-character [sep]: the whole string when
    [sep] does not occur, else the parts before and after its last
    occurrence. *)
Definition rsplit1 (sep : ascii) (s : string) : list string :=
  match Py.last_index sep s with
  | None => [s]
  | Some i => [substring 0 i s; substring (S i) (String.length s - S i) s]
  end.

Definition dot : ascii := "."%char.
Definition slash : ascii := "/"%char.

(** [os.path.join(a, b)] (posixpath): an absolute [b] replaces [a]; a
    separator is inserted unless [a] is empty or already ends with one. *)
Definition path_join (a b : string) : string :=
  match b with
  | String c _ => if Ascii.eqb c slash then b
                  else match String.get (String.length a - 1) a with
                       | Some d => if Ascii.eqb d slash then a ++ b else a ++ String slash b
                       | None => a ++ b
                       end
  | EmptyString => match String.get (String.length a - 1) a with
                   | Some d => if Ascii.eqb d slash then a ++ b else a ++ String slash b
                   | None => a ++ b
                   end
  end.

(** *** [allowed_file] (app.py, lines 25 and 36-38) *)

Definition ALLOWED_EXTENSIONS : list string := ["pdf"].

(** [ '.' in filename and filename.rsplit('.', 1)[1].lower() in ALLOWED_EXTENSIONS ];
    the index [1] raises [IndexError] on a one-part split, which the [and]
    keeps from being reached. *)
Definition allowed_file (filename : string) : Res bool :=
  if contains_char dot filename then
    match rsplit1 dot filename with
    | [_; ext] => Ok (existsb (String.eqb (lower ext)) ALLOWED_EXTENSIONS)
    | _ => Err IndexError
    end
  else Ok false.

(** *** [extract_text_from_pdf] (pdfreader.py, lines 3-37) *)

(** What PyMuPDF makes of the bytes of an existing file: the text of each
    page, or the exception [fitz.open] / [page.get_text()] raised, by its
    message. *)
Inductive PdfParse : Type :=
| Pages (page_texts : list string)
| Broken (message : string).

(** ["\n\n"] *)
Definition page_separator : string := nl ++ nl.

(** The file system is read at [pdf_path]; a missing file is
    [fitz.FileNotFoundError]. *)
Definition extract_text_from_pdf (parse_pdf : string -> PdfParse)
    (fs : string -> option string) (pdf_path : string) : string :=
  match fs pdf_path with
  | None => "Error: PDF file not found at path: " ++ pdf_path
  | Some bytes =>
      match parse_pdf bytes with
      | Pages all_page_texts => String.concat page_separator all_page_texts
      | Broken e => "Error extracting text from PDF: " ++ e
      end
  end.

(** *** File-system primitives of the routes *)

(** [os.path.exists(path)] *)
Definition file_exists (path : string) : M bool :=
  fun w => (Ok (match files w path with Some _ => true | None => false end), w).

(** Universal newlines, the default of text-mode reading: every ["\r\n"]
    and every remaining ["\r"] of the file reads as ["\n"]. *)
Fixpoint universal_newlines (s : string) : string :=
  match s with
  | EmptyString => EmptyString
  | String c rest =>
      if Ascii.eqb c "013"%char then
        match rest with
        | String c2 rest' =>
            if Ascii.eqb c2 "010"%char then String "010"%char (universal_newlines rest')
            else String "010"%char (universal_newlines rest)
        | EmptyString => String "010"%char EmptyString
        end
      else String c (universal_newlines rest)
  end.

(** [open(path, 'r').read()]: the file's content with universal newlines;
    a missing file raises [FileNotFoundError], an [OSError]. *)
Definition read_file (path : string) : M string :=
  fun w => match files w path with
           | Some contents => (Ok (universal_newlines contents), w)
           | None => (Err OSError, w)
           end.

Definition remove_path (path : string) (fs : string -> option string)
  : string -> option string :=
  fun p => if String.eqb p path then None else fs p.

(** [os.remove(path)] *)
Definition remove_file (path : string) : M unit :=
  fun w => match files w path with
           | Some _ => (Ok tt, {| posts := posts w; sleeps := sleeps w; calls := calls w;
                                  files := remove_path path (files w) |})
           | None => (Err OSError, w)
           end.

(** *** Requests, pages and the session *)

Inductive Method : Type := GET | POST.

(** An uploaded file: its client-side name and its bytes. *)
Record Upload : Type := { up_filename : string; up_data : string }.

(** What a route answers: a rendered template with an optional [error],
    the summary page, the quiz page with its [quiz_json], or a redirect to
    an endpoint. *)
Inductive Page : Type :=
| Render (template : string) (error : option string)
| ShowSummary (text_from_file : string)
| ShowQuiz (quiz_json : Json)
| RedirectTo (endpoint : string).

(** The server state: the world of the pipeline and the user's session
    (string values under string keys). *)
Record AppState : Type := { world : World; session : string -> option string }.

Definition AM (A : Type) : Type := AppState -> Res A * AppState.

Definition aret {A} (a : A) : AM A := fun s => (Ok a, s).
Definition araise {A} (e : Exn) : AM A := fun s => (Err e, s).
Definition abind {A B} (m : AM A) (k : A -> AM B) : AM B :=
  fun s => match m s with
           | (Ok a, s') => k a s'
           | (Err e, s') => (Err e, s')
           end.
Definition alift {A} (r : Res A) : AM A := fun s => (r, s).

(** [try: m except Exception as e: h(e)] *)
Definition atry {A} (m : AM A) (h : Exn -> AM A) : AM A :=
  fun s => match m s with
           | (Err e, s') => h e s'
           | r => r
           end.

(** A computation of the pipeline, run on the world. *)
Definition on_world {A} (m : M A) : AM A :=
  fun s => let '(r, w') := m (world s) in (r, {| world := w'; session := session s |}).

Definition update_session (k : string) (v : option string)
    (sess : string -> option string) : string -> option string :=
  fun k' => if String.eqb k' k then v else sess k'.

(** [session.get(k)] *)
Definition sess_get (k : string) : AM (option string) :=
  fun s => (Ok (session s k), s).

(** [session[k] = v] *)
Definition sess_set (k v : string) : AM unit :=
  fun s => (Ok tt, {| world := world s; session := update_session k (Some v) (session s) |}).

(** [session.pop(k, None)] *)
Definition sess_pop (k : string) : AM (option string) :=
  fun s => (Ok (session s k), {| world := world s; session := update_session k None (session s) |}).

Notation "x <<- m ;; k" := (abind m (fun x => k))
  (at level 61, m at next level, right associativity).
Notation "m ;;> k" := (abind m (fun _ => k)) (at level 61, right associativity).

(** [if os.path.exists(p): os.remove(p)] *)
Definition remove_if_exists (path : string) : AM unit :=
  ex <<- on_world (file_exists path) ;;
  if ex then on_world (remove_file path) else aret tt.

(** *** The routes *)

Section Routes.

Variable json_loads : string -> option Json.
Variable transport : nat -> Request -> PostResult.
Variable open_ok : string -> bool.
Variable parse_pdf : string -> PdfParse.
(** [werkzeug.utils.secure_filename] *)
Variable secure_filename : string -> string.
(** [str(e)] of an exception. *)
Variable exn_str : Exn -> string.
(** [int(s)] on a form field: the integer or the [ValueError] raised. *)
Variable py_int : string -> Res Z.
(** [os.path.dirname(os.path.abspath(__file__))] *)
Variable APP_ROOT : string.

(** Line 29. *)
Definition FINAL_OUTPUT_FILE : string := path_join APP_ROOT "output.txt".

(** Line 24: [app.config['UPLOAD_FOLDER']] is set while [UPLOAD_FOLDER] is
    still ['uploads']; the reassignment on line 30 does not reach the
    config. *)
Definition config_upload_folder : string := "uploads".

(** [homepage] (lines 42-47). *)
Definition homepage : AM Page :=
  sess_pop "temp_text_path" ;;>
  sess_pop "gemini_api_key" ;;>
  aret (Render "homepage.html" None).

(** [pdfupload] (lines 49-103); [uuid] is the value of [uuid.uuid4()].
    [file.save] writes the bytes like [open(path, 'w')]; a [FileStorage]
    is truthy when its filename is. *)
Definition pdfupload (method : Method) (pdf_file : option Upload) (uuid : string) : AM Page :=
  match method with
  | GET => aret (Render "pdfupload.html" None)
  | POST =>
      match pdf_file with
      | None => aret (Render "pdfupload.html" (Some "No file part in the request."))
      | Some file =>
          if String.eqb (up_filename file) EmptyString then
            aret (Render "pdfupload.html" (Some "No file selected."))
          else
            ok <<- (if Py.str_truthy (up_filename file)
                    then alift (allowed_file (up_filename file)) else aret false) ;;
            if ok then
              let filename := secure_filename (up_filename file) in
              let pdf_file_path := path_join config_upload_folder filename in
              let temp_text_filename := "text_" ++ uuid ++ ".txt" in
              let temp_text_file_path := path_join config_upload_folder temp_text_filename in
              atry
                (on_world (write_file open_ok pdf_file_path (JStr (up_data file))) ;;>
                 extracted_text <<- on_world (fun w =>
                   (Ok (extract_text_from_pdf parse_pdf (files w) pdf_file_path), w)) ;;
                 on_world (remove_file pdf_file_path) ;;>
                 on_world (write_file open_ok temp_text_file_path (JStr extracted_text)) ;;>
                 sess_set "temp_text_path" temp_text_file_path ;;>
                 aret (RedirectTo "apikey_entry"))
                (fun e =>
                 remove_if_exists pdf_file_path ;;>
                 remove_if_exists temp_text_file_path ;;>
                 aret (Render "pdfupload.html" (Some ("Error processing file: " ++ exn_str e))))
            else
              aret (Render "pdfupload.html" (Some "File type not allowed. Please upload a PDF."))
      end
  end.

(** Lines 127-133: read the temporary file, removing it in the [finally]. *)
Definition read_and_remove (temp_file_path : option string) : AM string :=
  match temp_file_path with
  | Some p =>
      if Py.str_truthy p then
        ex <<- on_world (file_exists p) ;;
        if ex then
          atry (t <<- on_world (read_file p) ;; on_world (remove_file p) ;;> aret t)
               (fun e => on_world (remove_file p) ;;> araise e)
        else aret EmptyString
      else aret EmptyString
  | None => aret EmptyString
  end.

(** [apikey_entry] (lines 105-156); [form_key] is
    [request.form.get('gemini_api_key')]. *)
Definition apikey_entry (method : Method) (form_key : option string) : AM Page :=
  temp <<- sess_get "temp_text_path" ;;
  match temp with
  | None => aret (RedirectTo "pdfupload")
  | Some _ =>
      match method with
      | GET => aret (Render "apikey_entry.html" None)
      | POST =>
          let api_key := match form_key with Some k => k | None => EmptyString end in
          if negb (Py.str_truthy api_key) then
            aret (Render "apikey_entry.html" (Some "API Key is required to proceed."))
          else
            sess_set "gemini_api_key" api_key ;;>
            temp_file_path <<- sess_pop "temp_text_path" ;;
            extracted_text <<- read_and_remove temp_file_path ;;
            if negb (Py.str_truthy extracted_text) then aret (RedirectTo "pdfupload")
            else
              atry
                (on_world (generate_summary json_loads transport open_ok extracted_text
                             FINAL_OUTPUT_FILE api_key) ;;>
                 aret (RedirectTo "summary"))
                (fun e => aret (Render "apikey_entry.html"
                   (Some ("Error generating summary. Check API Key validity and try again. ("
                          ++ exn_str e ++ ")"))))
      end
  end.

(** [summary] (lines 158-174). *)
Definition summary : AM Page :=
  atry (file_content <<- on_world (read_file FINAL_OUTPUT_FILE) ;; aret (ShowSummary file_content))
       (fun e => match e with
                 | OSError => aret (ShowSummary
                     "Error: The summary could not be found. Please upload a file first.")
                 | _ => aret (ShowSummary
                     ("An error occurred while reading the summary: " ++ exn_str e))
                 end).

(** [quiz_settings] (lines 176-183). *)
Definition quiz_settings : AM Page :=
  ex <<- on_world (file_exists FINAL_OUTPUT_FILE) ;;
  if negb ex then aret (RedirectTo "summary") else aret (Render "quizsetting.html" None).

(** Line 201; the source holds the UTF-8 bytes of an em dash read back as
    three cp1252 characters, written here as those UTF-8 bytes. *)
Definition summary_empty_msg : string :=
  "Summary file empty " ++ String "195" (String "162" (String "226" (String "130"
  (String "172" (String "226" (String "128" (String "157" EmptyString))))))) ++
  " please summarize first.".

Definition quiz_error (msg : string) : Page := ShowQuiz (JObj [("error", JStr msg)]).

(** [generate_quiz] (lines 186-215); the two fields are
    [request.form.get(...)] without their defaults. *)
Definition generate_quiz (num_questions_field difficulty_field : option string) : AM Page :=
  key <<- sess_get "gemini_api_key" ;;
  let api_key := match key with Some k => k | None => EmptyString end in
  if negb (Py.str_truthy api_key) then
    aret (quiz_error "API Key is missing. Please restart the process from the upload page.")
  else
    atry
      (let num_questions := match num_questions_field with Some s => s | None => "5" end in
       let difficulty := match difficulty_field with Some s => s | None => "medium" end in
       raw <<- on_world (read_file FINAL_OUTPUT_FILE) ;;
       let summary_text := Py.strip raw in
       if negb (Py.str_truthy summary_text) then araise (ValueError summary_empty_msg)
       else
         n <<- alift (py_int num_questions) ;;
         quiz_data_dict <<- on_world (create_quiz_from_text json_loads transport
                                        summary_text n difficulty api_key) ;;
         aret (ShowQuiz quiz_data_dict))
      (fun e => aret (quiz_error ("Quiz generation failed: " ++ exn_str e))).

End Routes.

End App.

(* ------------------------------------------------------------------ *)
(** ** String reversal, used to reason about [rstrip] *)

Module StrDefs.

Definition rev_str (s : string) : string :=
  string_of_list_ascii (rev (list_ascii_of_string s)).

End StrDefs.

(* ------------------------------------------------------------------ *)
(** ** More concrete inputs *)

Module MockMore.
Import Data Pipeline App.

(** More documents: a summary whose [text] is a number, a blocked
    response, a part without [text], a quiz with a non-dict question, and
    the empty object; anything else as [Mock.decode]. *)
Definition decode (s : string) : option Json :=
  if String.eqb s "ENV-NUMTEXT" then
    Some (JObj [("candidates", JArr [JObj [("content", JObj [("parts",
            JArr [JObj [("text", JNum 7)]])])]])])
  else if String.eqb s "BLOCKED" then
    Some (JObj [("promptFeedback", JObj [("blockReason", JStr "SAFETY")])])
  else if String.eqb s "ENV-NOTEXT" then
    Some (JObj [("candidates", JArr [JObj [("content", JObj [("parts",
            JArr [JObj [("inlineData", JNull)]])])]])])
  else if String.eqb s "ENV-MIXED" then Some (Mock.envelope "MIXED")
  else if String.eqb s "MIXED" then
    Some (JObj [("questions", JArr [Mock.question 1 "a"; JStr "oops"])])
  else if String.eqb s "{}" then Some (JObj [])
  else Mock.decode s.

(** Every post fails at the transport level. *)
Definition down (_ : nat) (_ : Request) : PostResult := TransportFailure.

(** PyMuPDF on two kinds of bytes. *)
Definition parse_pdf (bytes : string) : PdfParse :=
  if String.eqb bytes "%PDF-1.7 good" then Pages ["page one"; "page two"]
  else Broken "cannot open broken document".

Definition exn_str (_ : Exn) : string := "error".

Definition py_int (s : string) : Res Z :=
  if String.eqb s "3" then Ok 3
  else if String.eqb s "5" then Ok 5
  else Err (ValueError "invalid literal for int() with base 10").

(** [n] copies of [s]. *)
Fixpoint repeat_str (n : nat) (s : string) : string :=
  match n with O => EmptyString | S k => s ++ repeat_str k s end.

End MockMore.

(* ------------------------------------------------------------------ *)
(** ** Facts about the string primitives *)

Module PyFacts.

Lemma substring_length_le (n m : nat) (s : string) :
  (String.length (substring n m s) <= m)%nat.
Proof.
  revert n m; induction s as [|c s IH]; intros n m.
  - destruct n, m; simpl; lia.
  - destruct n as [|n]; [destruct m as [|m]|]; simpl.
    + lia.
    + specialize (IH 0%nat m). lia.
    + apply IH.
Qed.

Lemma last_index_lt (c : ascii) (s : string) (i : nat) :
  Py.last_index c s = Some i -> (i < String.length s)%nat.
Proof.
  revert i; induction s as [|d s IH]; intros i H; simpl in H; [discriminate|].
  simpl. destruct (Py.last_index c s) as [j|] eqn:E.
  - injection H as <-. specialize (IH j eq_refl). lia.
  - destruct (Ascii.eqb c d); [injection H as <-; lia | discriminate].
Qed.

Lemma adjust_in_range (n i : Z) : 0 <= i <= n -> Py.adjust n i = i.
Proof. intros H. unfold Py.adjust. destruct (Z.ltb_spec i 0); lia. Qed.

(** A hit of [rfind] lies before the (normalised) end bound. *)
Lemma rfind_lt_end (c : ascii) (s : string) (a b : Z) :
  0 <= b <= Py.len s -> Py.rfind c s a b < b.
Proof.
  intros Hb. unfold Py.rfind. rewrite (adjust_in_range _ b Hb).
  set (a' := Py.adjust (Py.len s) a).
  destruct (Z.ltb_spec a' b) as [Hlt|Hge]; [|lia].
  destruct (Py.last_index c _) as [i|] eqn:E; [|lia].
  apply last_index_lt in E.
  pose proof (substring_length_le (Z.to_nat a') (Z.to_nat (b - a')) s).
  assert (0 <= a') by (unfold a', Py.adjust; destruct (Z.ltb_spec a 0); lia).
  lia.
Qed.

End PyFacts.

(* ------------------------------------------------------------------ *)
(** ** Facts about the chunking loop *)

Module ChunkFacts.
Import Chunk.

Lemma loop_unfold (fuel : nat) (text : string) (M O start : Z) :
  loop (S fuel) text M O start =
  if start <? Py.len text then
    option_map (cons (start, span_end text M O start))
      (loop fuel text M O (next_start text O (span_end text M O start)))
  else Some [].
Proof. simpl. destruct (start <? Py.len text); [|reflexivity].
  destruct (loop fuel _ _ _ _); reflexivity. Qed.

(** Once the loop has finished, more fuel gives the same spans. *)
Lemma loop_more_fuel (fuel : nat) (text : string) (M O start : Z) spans :
  loop fuel text M O start = Some spans ->
  loop (S fuel) text M O start = Some spans.
Proof.
  revert start spans; induction fuel as [|f IH]; intros start spans H.
  - simpl in H. simpl. destruct (start <? Py.len text); [discriminate | exact H].
  - rewrite loop_unfold. rewrite loop_unfold in H.
    destruct (start <? Py.len text); [|exact H].
    destruct (loop f text M O _) as [r|] eqn:E; [|discriminate].
    rewrite (IH _ _ E). exact H.
Qed.

Lemma loop_fuel_ge (fuel fuel' : nat) (text : string) (M O start : Z) spans :
  (fuel <= fuel')%nat ->
  loop fuel text M O start = Some spans ->
  loop fuel' text M O start = Some spans.
Proof.
  intros Hle H. induction Hle; [exact H|]. apply loop_more_fuel. exact IHHle.
Qed.

(** One step of the loop, for a non-negative start inside the text:
    [span_end] either stays at the hard cut-off or snaps to a natural
    break strictly after [start + M - O]. *)
Lemma next_start_progress (text : string) (M O start : Z) :
  O < M -> 2 * O < M + 2 ->
  0 <= start < Py.len text ->
  start < next_start text O (span_end text M O start).
Proof.
  intros HOM H2 Hs. unfold next_start, span_end.
  set (L := Py.len text).
  destruct (Z.ltb_spec (Z.min (start + M) L) L) as [Hlt|Hge].
  - assert (Hm : Z.min (start + M) L = start + M) by lia.
    rewrite Hm in *.
    set (bp := Z.max _ _).
    destruct (Z.ltb_spec (start + M - O) bp).
    + destruct (Z.ltb_spec (bp + 1) L); lia.
    + destruct (Z.ltb_spec (start + M) L); lia.
  - destruct (Z.ltb_spec (Z.min (start + M) L) L); lia.
Qed.

(** Under the same conditions the loop finishes within [len(text) - start]
    iterations. *)
Lemma loop_terminates (text : string) (M O : Z) :
  O < M -> 2 * O < M + 2 ->
  forall fuel start, 0 <= start ->
  (Z.to_nat (Py.len text - start) <= fuel)%nat ->
  exists spans, loop fuel text M O start = Some spans.
Proof.
  intros HOM H2. induction fuel as [|f IH]; intros start Hs Hf.
  - exists []. simpl. destruct (Z.ltb_spec start (Py.len text)); [lia|reflexivity].
  - rewrite loop_unfold. destruct (Z.ltb_spec start (Py.len text)) as [Hlt|]; [|eauto].
    pose proof (next_start_progress text M O start HOM H2 (conj Hs Hlt)).
    destruct (IH (next_start text O (span_end text M O start))) as [r Hr]; [lia|lia|].
    rewrite Hr. eexists. reflexivity.
Qed.

Lemma loop_head (fuel : nat) (text : string) (M O s a b : Z) rest :
  loop fuel text M O s = Some ((a, b) :: rest) ->
  a = s /\ b = span_end text M O s /\ s < Py.len text /\
  exists fuel', loop fuel' text M O (next_start text O b) = Some rest.
Proof.
  intros Hl. destruct fuel as [|f].
  - simpl in Hl. destruct (s <? Py.len text); discriminate.
  - rewrite loop_unfold in Hl. destruct (Z.ltb_spec s (Py.len text)) as [Hs|Hs].
    + destruct (loop f text M O _) as [r|] eqn:E; [|discriminate].
      injection Hl as H1 H2 H3. subst. repeat split; auto. exists f. exact E.
    + discriminate.
Qed.

(** With a non-negative overlap the computed spans, read as raw intervals
    [[start, end)], cover every offset from [start] to [len(text)]. *)
Lemma loop_cover (text : string) (M O : Z) :
  0 <= O ->
  forall fuel s spans, loop fuel text M O s = Some spans ->
  forall x, s <= x < Py.len text -> exists a b, In (a, b) spans /\ a <= x < b.
Proof.
  intros HO. induction fuel as [|f IH]; intros s spans H x Hx.
  - simpl in H. destruct (Z.ltb_spec s (Py.len text)); [discriminate | lia].
  - rewrite loop_unfold in H. destruct (Z.ltb_spec s (Py.len text)); [|lia].
    set (e := span_end text M O s) in *.
    destruct (loop f text M O (next_start text O e)) as [rest|] eqn:E; [|discriminate].
    injection H as <-.
    destruct (Z.ltb_spec x e).
    + exists s, e. split; [left; reflexivity | lia].
    + assert (He : e < Py.len text) by lia.
      destruct (IH _ _ E x) as (a & b & Hin & Hab).
      { unfold next_start. destruct (Z.ltb_spec e (Py.len text)); lia. }
      exists a, b. split; [right; exact Hin | exact Hab].
Qed.

(** Consecutive spans: the next start is the previous end minus the
    overlap. *)
Lemma loop_consecutive (text : string) (M O : Z) :
  forall fuel s spans, loop fuel text M O s = Some spans ->
  forall k s1 e1 s2 e2,
  nth_error spans k = Some (s1, e1) -> nth_error spans (S k) = Some (s2, e2) ->
  s2 = e1 - O.
Proof.
  induction fuel as [|f IH]; intros s spans H k s1 e1 s2 e2 H1 H2.
  - simpl in H. destruct (s <? Py.len text); [discriminate|].
    injection H as <-. destruct k; discriminate.
  - rewrite loop_unfold in H. destruct (s <? Py.len text); [|injection H as <-; destruct k; discriminate].
    set (e := span_end text M O s) in *.
    destruct (loop f text M O (next_start text O e)) as [rest|] eqn:E; [|discriminate].
    injection H as <-. destruct k as [|k].
    + simpl in H1, H2. injection H1 as <- <-.
      destruct rest as [|[a b] rest']; [discriminate|]. injection H2 as <- <-.
      destruct (loop_head _ _ _ _ _ _ _ _ E) as (Ha & _ & Hlt & _).
      unfold next_start in Ha, Hlt. destruct (Z.ltb_spec e (Py.len text)); lia.
    + exact (IH _ _ E k s1 e1 s2 e2 H1 H2).
Qed.

Lemma substring_full (s : string) : substring 0 (String.length s) s = s.
Proof. induction s as [|c s IH]; simpl; [reflexivity | rewrite IH; reflexivity]. Qed.

Lemma slice_full (text : string) : Py.slice text 0 (Py.len text) = text.
Proof.
  unfold Py.slice. rewrite !PyFacts.adjust_in_range by (unfold Py.len; lia).
  destruct (Z.ltb_spec 0 (Py.len text)) as [H|H].
  - unfold Py.len. rewrite Z.sub_0_r, !Nat2Z.id. apply substring_full.
  - unfold Py.len in H. destruct text; [reflexivity | simpl in H; lia].
Qed.

(** Text shorter than [max_chunk_size]: a single span [(0, len(text))]. *)
Lemma loop_short (fuel : nat) (text : string) (M O : Z) :
  0 < Py.len text < M ->
  loop (S fuel) text M O 0 = Some [(0, Py.len text)].
Proof.
  intros H. rewrite loop_unfold. destruct (Z.ltb_spec 0 (Py.len text)); [|lia].
  assert (He : span_end text M O 0 = Py.len text).
  { unfold span_end. destruct (Z.ltb_spec (Z.min (0 + M) (Py.len text)) (Py.len text)); lia. }
  rewrite He. unfold next_start. rewrite Z.ltb_irrefl.
  destruct fuel; simpl; rewrite Z.ltb_irrefl; reflexivity.
Qed.

(** A non-terminating run: on [text = "ab." ++ 20 "x"] with
    [max_chunk_size = 10] and [overlap = 9] the starts are 0, -6, -9, -9, ...;
    each of 0, -6, -9 steps to one of them. *)
Lemma cycle_closed (s : Z) :
  In s [0; -6; -9] ->
  In (next_start "ab.xxxxxxxxxxxxxxxxxxxx" 9 (span_end "ab.xxxxxxxxxxxxxxxxxxxx" 10 9 s))
     [0; -6; -9] /\ s < Py.len "ab.xxxxxxxxxxxxxxxxxxxx".
Proof.
  intros H. repeat (destruct H as [<-|H]; [split; vm_compute; auto 10|]). contradiction.
Qed.

Lemma cycle_diverges (fuel : nat) (s : Z) :
  In s [0; -6; -9] ->
  loop fuel "ab.xxxxxxxxxxxxxxxxxxxx" 10 9 s = None.
Proof.
  revert s. induction fuel as [|f IH]; intros s H; destruct (cycle_closed s H) as [Hn Hlt].
  - simpl. destruct (Z.ltb_spec s (Py.len "ab.xxxxxxxxxxxxxxxxxxxx")); [reflexivity | lia].
  - rewrite loop_unfold. destruct (Z.ltb_spec s (Py.len "ab.xxxxxxxxxxxxxxxxxxxx")); [|lia].
    rewrite (IH _ Hn). reflexivity.
Qed.

Lemma chunk_text_defaults_finishes (text : string) :
  exists chunks,
    chunk_text_fuel (S (String.length text)) text CHUNK_SIZE CHUNK_OVERLAP = Some chunks.
Proof.
  unfold chunk_text_fuel.
  destruct (loop_terminates text CHUNK_SIZE CHUNK_OVERLAP
              ltac:(unfold CHUNK_SIZE, CHUNK_OVERLAP; lia) ltac:(unfold CHUNK_SIZE, CHUNK_OVERLAP; lia)
              (S (String.length text)) 0 ltac:(lia)) as [spans Hs].
  { unfold Py.len. lia. }
  rewrite Hs. eexists. reflexivity.
Qed.

End ChunkFacts.

(* ================================================================== *)
(** * Claims about [chunk_text] *)

(** C2 (counterexample).  With [max_chunk_size = 10] and [overlap = 9]
    (overlap < maxSize), on ["ab." ++ 20 "x"] the natural break at offset 2
    is taken, the next start is [3 - 9 = -6 < 0], and the loop never leaves:
    for every bound on the number of iterations it is still running. *)
Lemma chunk_progress_counterexample :
  9 < 10 /\
  Chunk.next_start "ab.xxxxxxxxxxxxxxxxxxxx" 9
    (Chunk.span_end "ab.xxxxxxxxxxxxxxxxxxxx" 10 9 0) = -6 /\
  (forall fuel, Chunk.chunk_text_fuel fuel "ab.xxxxxxxxxxxxxxxxxxxx" 10 9 = None).
Proof.
  split; [lia|]. split; [vm_compute; reflexivity|].
  intros fuel. unfold Chunk.chunk_text_fuel.
  rewrite (ChunkFacts.cycle_diverges fuel 0 ltac:(left; reflexivity)). reflexivity.
Qed.

(** C2 (amended).  For every overlap with [overlap < max_chunk_size] and
    [2 * overlap < max_chunk_size + 2] (every overlap [<= 0] qualifies, and so
    do the defaults 15000 / 1000), every step of the loop from an offset
    inside the text moves the start strictly forward, and the loop leaves
    within [len(text)] iterations. *)
Theorem chunk_text_progress (text : string) (max_chunk_size overlap : Z) :
  overlap < max_chunk_size -> 2 * overlap < max_chunk_size + 2 ->
  (forall start, 0 <= start < Py.len text ->
     start < Chunk.next_start text overlap (Chunk.span_end text max_chunk_size overlap start)) /\
  (forall fuel, (Z.to_nat (Py.len text) <= fuel)%nat ->
     exists chunks, Chunk.chunk_text_fuel fuel text max_chunk_size overlap = Some chunks).
Proof.
  intros HOM H2. split.
  - intros start Hs. apply ChunkFacts.next_start_progress; assumption.
  - intros fuel Hf.
    destruct (ChunkFacts.loop_terminates text max_chunk_size overlap HOM H2 fuel 0
                ltac:(lia) ltac:(rewrite Z.sub_0_r; exact Hf)) as [spans Hs].
    unfold Chunk.chunk_text_fuel. rewrite Hs. eexists. reflexivity.
Qed.

Lemma chunk_text_progress_witness :
  (-3 < 4 /\ 2 * -3 < 4 + 2) /\
  exists chunks, Chunk.chunk_text_fuel 20 "one. two. three" 4 (-3) = Some chunks.
Proof.
  split; [lia|].
  apply (proj2 (chunk_text_progress "one. two. three" 4 (-3) ltac:(lia) ltac:(lia))).
  vm_compute. lia.
Defined.

(** C3 (counterexample).  Two parameter pairs with overlap < maxSize where
    the spans do not cover the text: with [overlap = -1] on a 10-character
    text without breaks the spans are [[0,5)] and [[6,10)], leaving offset 5
    uncovered; with [max_chunk_size = 10] and [overlap = 9] on
    ["ab." ++ 20 "x"] the loop computes spans forever and never reaches the
    end of the text. *)
Lemma chunk_spans_counterexample :
  (-1 < 5 /\
   Chunk.loop 10 "abcdefghij" 5 (-1) 0 = Some [(0, 5); (6, 10)]) /\
  (9 < 10 /\
   forall fuel, Chunk.loop fuel "ab.xxxxxxxxxxxxxxxxxxxx" 10 9 0 = None).
Proof.
  split; [split; [lia | vm_compute; reflexivity]|].
  split; [lia|]. intros fuel. apply ChunkFacts.cycle_diverges. left; reflexivity.
Qed.

(** C3 (amended).  For [0 <= overlap < max_chunk_size] with
    [2 * overlap < max_chunk_size + 2], [chunk_text] computes one list of
    spans [[start, end)] (the same for every large enough iteration bound);
    read as raw intervals they cover every offset of [[0, len(text))], and
    each start is the previous end minus [overlap], hence strictly before it
    when [overlap > 0]. *)
Theorem chunk_spans_cover (text : string) (max_chunk_size overlap : Z) :
  0 <= overlap -> overlap < max_chunk_size -> 2 * overlap < max_chunk_size + 2 ->
  exists spans,
    (forall fuel, (Z.to_nat (Py.len text) <= fuel)%nat ->
       Chunk.loop fuel text max_chunk_size overlap 0 = Some spans /\
       Chunk.chunk_text_fuel fuel text max_chunk_size overlap =
         Some (Chunk.chunks_of_spans text spans)) /\
    (forall x, 0 <= x < Py.len text -> exists a b, In (a, b) spans /\ a <= x < b) /\
    (forall k s1 e1 s2 e2,
       nth_error spans k = Some (s1, e1) -> nth_error spans (S k) = Some (s2, e2) ->
       s2 = e1 - overlap /\ (0 < overlap -> s2 < e1)).
Proof.
  intros HO HOM H2.
  destruct (ChunkFacts.loop_terminates text max_chunk_size overlap HOM H2
              (Z.to_nat (Py.len text)) 0 ltac:(lia) ltac:(rewrite Z.sub_0_r; lia))
    as [spans Hs].
  exists spans. split; [|split].
  - intros fuel Hf.
    pose proof (ChunkFacts.loop_fuel_ge _ _ _ _ _ _ _ Hf Hs) as Hf'.
    split; [exact Hf'|]. unfold Chunk.chunk_text_fuel. rewrite Hf'. reflexivity.
  - intros x Hx. exact (ChunkFacts.loop_cover text max_chunk_size overlap HO _ _ _ Hs x Hx).
  - intros k s1 e1 s2 e2 H1 H2'.
    pose proof (ChunkFacts.loop_consecutive text max_chunk_size overlap _ _ _ Hs k s1 e1 s2 e2 H1 H2').
    split; [assumption | lia].
Qed.

Lemma chunk_spans_cover_witness :
  (0 <= 2 /\ 2 < 6 /\ 2 * 2 < 6 + 2) /\
  exists spans,
    Chunk.loop 12 "aaaa.bbbb.cc" 6 2 0 = Some spans /\
    (forall x, 0 <= x < Py.len "aaaa.bbbb.cc" -> exists a b, In (a, b) spans /\ a <= x < b).
Proof.
  split; [lia|].
  destruct (chunk_spans_cover "aaaa.bbbb.cc" 6 2 ltac:(lia) ltac:(lia) ltac:(lia))
    as (spans & Hrun & Hcov & _).
  exists spans. split; [apply (Hrun 12%nat); vm_compute; lia | exact Hcov].
Defined.

(** C8 (counterexample).  A one-space text is shorter than the default
    [max_chunk_size], yet [chunk_text] returns no chunk: its single span
    strips to the empty string and is dropped. *)
Lemma chunk_text_blank_counterexample :
  Py.len " " < 15000 /\ Py.strip " " = EmptyString /\
  Chunk.chunk_text_fuel 1 " " 15000 1000 = Some [].
Proof. vm_compute. split; [reflexivity | split; reflexivity]. Qed.

(** C8 (amended).  On the empty text [chunk_text] returns no chunk; on a
    text shorter than [max_chunk_size] it returns exactly one chunk, the
    stripped text, when that is non-empty, and no chunk otherwise; and no
    chunk it returns is empty. *)
Theorem chunk_text_edge_cases (max_chunk_size overlap : Z) :
  (forall fuel, Chunk.chunk_text_fuel fuel EmptyString max_chunk_size overlap = Some []) /\
  (forall text fuel, Py.len text < max_chunk_size ->
     Chunk.chunk_text_fuel (S fuel) text max_chunk_size overlap =
       Some (if Py.str_truthy (Py.strip text) then [Py.strip text] else [])) /\
  (forall text fuel chunks,
     Chunk.chunk_text_fuel fuel text max_chunk_size overlap = Some chunks ->
     forall c, In c chunks -> c <> EmptyString).
Proof.
  split; [|split].
  - intros [|f]; reflexivity.
  - intros text fuel Hlt. destruct text as [|ch rest].
    + reflexivity.
    + unfold Chunk.chunk_text_fuel.
      rewrite ChunkFacts.loop_short by (unfold Py.len in *; simpl in *; lia).
      unfold option_map, Chunk.chunks_of_spans. cbn [map].
      rewrite ChunkFacts.slice_full. cbn [filter].
      destruct (Py.str_truthy (Py.strip (String ch rest))); reflexivity.
  - intros text fuel chunks H c Hc. unfold Chunk.chunk_text_fuel in H.
    destruct (Chunk.loop _ _ _ _ _); [|discriminate]. injection H as <-.
    unfold Chunk.chunks_of_spans in Hc. apply filter_In in Hc as [_ Ht].
    intros ->. discriminate.
Qed.

Lemma chunk_text_edge_cases_witness :
  Py.len " hello " < 15000 /\
  Chunk.chunk_text_fuel 1 " hello " 15000 1000 = Some ["hello"].
Proof.
  split; [vm_compute; reflexivity|].
  rewrite (proj1 (proj2 (chunk_text_edge_cases 15000 1000)) " hello " 0%nat
             ltac:(vm_compute; reflexivity)).
  vm_compute. reflexivity.
Defined.


(* ================================================================== *)
(** * Facts about the retry loop *)

Module InvokerFacts.
Import Data Pipeline.

(** Closes the first six parts of a one-attempt trace. *)
Ltac one_attempt :=
  split; [lia|]; split; [reflexivity|];
  split; [cbn; rewrite app_nil_r; reflexivity|];
  split; [reflexivity|]; split; [reflexivity|];
  split; [intros ? ?; lia|]; split.

Section Retry.
Variable json_loads : string -> option Json.
Variable transport : nat -> Request -> PostResult.
Variable A : Type.
Variable process : Json -> Res A.
Variable rq : Request.
Variables api_error_prefix unexpected_prefix exhausted_msg : string.

Let body := attempt_once json_loads transport process rq api_error_prefix unexpected_prefix.

(** The loop from attempt [a] with [k] attempts left ([a + k = 3]) posts
    [n] times, sleeps [2^a, ..., 2^(a+n-2)], retries only on retryable
    responses, stops on a retryable response only at the last attempt, and
    raises the body of an HTTP error that ends it. *)
Lemma for_attempts_trace (k : nat) :
  forall (a : nat) (w : World), (1 <= k)%nat -> (a + k = 3)%nat ->
  let '(r, w') := for_attempts body (seq a k) (raise (RetriesExhausted exhausted_msg)) w in
  exists n, (1 <= n <= k)%nat /\
    posts w' = (posts w ++ repeat rq n)%list /\
    sleeps w' = (sleeps w ++ map (fun i => 2 ^ Z.of_nat i) (seq a (n - 1)))%list /\
    calls w' = calls w /\ files w' = files w /\
    (forall i, (i < n - 1)%nat ->
       retryable_response (transport (length (posts w) + i) rq) = true) /\
    (retryable_response (transport (length (posts w) + (n - 1)) rq) = true ->
       (a + n = 3)%nat) /\
    (forall status text,
       transport (length (posts w) + (n - 1)) rq = Response status text ->
       is_http_error status = true -> r = Err (ApiError api_error_prefix text)).
Proof.
  induction k as [|k IH]; intros a w Hk Hak; [lia|].
  cbn [seq for_attempts]. unfold bind at 1. unfold body at 1. unfold attempt_once, bind at 1, post.
  cbn [fst snd posts sleeps calls files].
  set (w1 := {| posts := (posts w ++ [rq])%list; sleeps := sleeps w; calls := calls w;
                files := files w |}).
  destruct (transport (length (posts w)) rq) as [st txt|] eqn:Et.
  2:{ exists 1%nat. cbn. rewrite Nat.add_0_r, Et. one_attempt.
      - discriminate.
      - discriminate. }
  destruct (is_http_error st) eqn:Eh.
  - destruct (Nat.ltb a (max_retries - 1) && retryable_status st) eqn:Er.
    + (* retry: sleep, then the remaining attempts *)
      unfold bind, sleep, ret. cbn [fst snd].
      apply andb_prop in Er as [Ea Er]. apply Nat.ltb_lt in Ea. unfold max_retries in Ea.
      destruct k as [|k']; [lia|].
      set (w2 := {| posts := posts w1; sleeps := (sleeps w1 ++ [2 ^ Z.of_nat a])%list;
                    calls := calls w1; files := files w1 |}).
      specialize (IH (S a) w2 ltac:(lia) ltac:(lia)).
      destruct (for_attempts body (seq (S a) (S k')) _ w2) as [r w'] eqn:Ef.
      destruct IH as (n & Hn & Hp & Hs & Hc & Hf & Hre & Hlast & Herr).
      assert (Hlen : length (posts w2) = S (length (posts w))).
      { cbn. rewrite length_app. cbn. lia. }
      exists (S n). split; [lia|]. split; [|split; [|split; [|split; [|split; [|split]]]]].
      * rewrite Hp. cbn. rewrite <- app_assoc. reflexivity.
      * rewrite Hs. cbn. rewrite <- app_assoc. destruct n as [|n]; [lia|].
        cbn. rewrite Nat.sub_0_r. reflexivity.
      * exact Hc.
      * exact Hf.
      * intros i Hi. destruct i as [|i].
        -- rewrite Nat.add_0_r, Et. cbn. rewrite Eh, Er. reflexivity.
        -- specialize (Hre i ltac:(lia)). rewrite Hlen in Hre.
           replace (length (posts w) + S i)%nat with (S (length (posts w)) + i)%nat by lia.
           exact Hre.
      * intros Hr. rewrite Hlen in Hlast.
        replace (length (posts w) + (S n - 1))%nat with (S (length (posts w)) + (n - 1))%nat
          in Hr by lia.
        specialize (Hlast Hr). lia.
      * intros st' txt' Hst Hh. rewrite Hlen in Herr. apply (Herr st' txt'); [|exact Hh].
        replace (S (length (posts w)) + (n - 1))%nat with (length (posts w) + (S n - 1))%nat
          by lia.
        exact Hst.
    + (* no retry: the HTTP error is raised with the response body *)
      exists 1%nat. cbn. rewrite Nat.add_0_r, Et. one_attempt.
      * intros Hr. cbn in Hr. rewrite Eh in Hr. cbn in Hr.
        apply andb_false_iff in Er as [Ea|Ea].
        -- apply Nat.ltb_ge in Ea. unfold max_retries in Ea. lia.
        -- rewrite Ea in Hr. discriminate.
      * intros st' txt' Hst _. injection Hst as <- <-. reflexivity.
  - (* not an HTTP error: the success path returns or raises, no retry *)
    destruct (json_loads txt) as [res|]; [destruct (process res) as [v|e]|];
      cbn; exists 1%nat; cbn; rewrite Nat.add_0_r, Et; one_attempt;
      solve [ cbn; rewrite Eh; discriminate
            | intros st' txt' Hst Hh; injection Hst as <- <-; rewrite Eh in Hh; discriminate ].
Qed.

(** The whole loop: at most three posts, and a retryable response ends it
    only at the third. *)
Lemma invoke_trace (w : World) :
  let '(r, w') := invoke_with_retries json_loads transport process rq
                    api_error_prefix unexpected_prefix exhausted_msg w in
  exists n, (1 <= n <= 3)%nat /\
    posts w' = (posts w ++ repeat rq n)%list /\
    sleeps w' = (sleeps w ++ map (fun i => 2 ^ Z.of_nat i) (seq 0 (n - 1)))%list /\
    calls w' = calls w /\ files w' = files w /\
    (forall i, (i < n - 1)%nat ->
       retryable_response (transport (length (posts w) + i) rq) = true) /\
    (retryable_response (transport (length (posts w) + (n - 1)) rq) = true -> n = 3%nat) /\
    (forall status text,
       transport (length (posts w) + (n - 1)) rq = Response status text ->
       is_http_error status = true -> r = Err (ApiError api_error_prefix text)).
Proof.
  pose proof (for_attempts_trace 3 0 w ltac:(lia) ltac:(lia)) as H.
  unfold invoke_with_retries. fold body. revert H. cbn [seq max_retries].
  destruct (for_attempts body _ _ w) as [r w']. intros H.
  destruct H as (n & Hn & Hp & Hs & Hc & Hf & Hre & Hlast & Herr).
  exists n. repeat split; auto; lia.
Qed.

(** Two 429 responses, then a success: the third response's result after
    two sleeps of 1 s and 2 s. *)
Lemma invoke_two_429_then_ok (w : World) b0 b1 status text result v :
  transport (length (posts w)) rq = Response 429 b0 ->
  transport (S (length (posts w))) rq = Response 429 b1 ->
  transport (S (S (length (posts w)))) rq = Response status text ->
  is_http_error status = false -> json_loads text = Some result -> process result = Ok v ->
  invoke_with_retries json_loads transport process rq
    api_error_prefix unexpected_prefix exhausted_msg w =
  (Ok v, {| posts := (posts w ++ [rq; rq; rq])%list; sleeps := (sleeps w ++ [1; 2])%list;
            calls := calls w; files := files w |}).
Proof.
  intros H0 H1 H2 Hh Hj Hp.
  unfold invoke_with_retries. cbn [seq for_attempts max_retries].
  unfold bind, attempt_once, bind, post. cbn [posts sleeps calls files].
  rewrite H0. cbn. unfold bind, sleep, ret. cbn.
  rewrite length_app, Nat.add_1_r, H1. cbn.
  rewrite !length_app, Nat.add_1_r. cbn. rewrite Nat.add_1_r, H2, Hh, Hj, Hp.
  cbn. rewrite <- !app_assoc. reflexivity.
Qed.

(** A success on the first attempt: one post, no sleep. *)
Lemma invoke_first_ok (w : World) status text result v :
  transport (length (posts w)) rq = Response status text ->
  is_http_error status = false -> json_loads text = Some result -> process result = Ok v ->
  invoke_with_retries json_loads transport process rq
    api_error_prefix unexpected_prefix exhausted_msg w =
  (Ok v, {| posts := (posts w ++ [rq])%list; sleeps := sleeps w;
            calls := calls w; files := files w |}).
Proof.
  intros H0 Hh Hj Hp.
  unfold invoke_with_retries. cbn [seq for_attempts max_retries].
  unfold bind, attempt_once, bind, post. cbn [posts sleeps calls files].
  rewrite H0. cbn. rewrite Hh, Hj, Hp. reflexivity.
Qed.

End Retry.
End InvokerFacts.

(* ================================================================== *)
(** * Claims about the invokers *)

Import Data Pipeline.

(** C1.  Both invokers ([_call_gemini_api] and
    [_call_gemini_api_structured]) post at most three times; every post but
    the last got a retryable response (HTTP error with status 429 or >= 500);
    the sleeps are [2^0, 2^1, ...], one after each failed attempt; a
    retryable response ends the loop only at the third attempt; an HTTP error
    that ends the loop is raised with the response body; and with 429, 429,
    then a success the invoker returns the success result after sleeps of
    1 s and 2 s and three posts. *)
Theorem invoker_retry_policy (json_loads : string -> option Json)
    (transport : nat -> Request -> PostResult) (w : World) :
  (forall system_prompt user_query api_key,
     let rq := summary_request system_prompt user_query api_key in
     let '(r, w') := call_gemini_api json_loads transport system_prompt user_query api_key w in
     exists n, (1 <= n <= 3)%nat /\
       posts w' = (posts w ++ repeat rq n)%list /\
       sleeps w' = (sleeps w ++ map (fun i => 2 ^ Z.of_nat i) (seq 0 (n - 1)))%list /\
       (forall i, (i < n - 1)%nat ->
          retryable_response (transport (length (posts w) + i)%nat rq) = true) /\
       (retryable_response (transport (length (posts w) + (n - 1))%nat rq) = true -> n = 3%nat) /\
       (forall status text,
          transport (length (posts w) + (n - 1))%nat rq = Response status text ->
          is_http_error status = true ->
          r = Err (ApiError "Failed to generate summary due to API error: " text))) /\
  (forall user_query schema system_prompt api_key,
     let rq := structured_request user_query schema system_prompt api_key in
     let '(r, w') := call_gemini_api_structured json_loads transport
                       user_query schema system_prompt api_key w in
     exists n, (1 <= n <= 3)%nat /\
       posts w' = (posts w ++ repeat rq n)%list /\
       sleeps w' = (sleeps w ++ map (fun i => 2 ^ Z.of_nat i) (seq 0 (n - 1)))%list /\
       (forall i, (i < n - 1)%nat ->
          retryable_response (transport (length (posts w) + i)%nat rq) = true) /\
       (retryable_response (transport (length (posts w) + (n - 1))%nat rq) = true -> n = 3%nat) /\
       (forall status text,
          transport (length (posts w) + (n - 1))%nat rq = Response status text ->
          is_http_error status = true ->
          r = Err (ApiError "Failed to generate quiz due to API error: " text))) /\
  (forall system_prompt user_query api_key b0 b1 status text result v,
     let rq := summary_request system_prompt user_query api_key in
     transport (length (posts w)) rq = Response 429 b0 ->
     transport (S (length (posts w))) rq = Response 429 b1 ->
     transport (S (S (length (posts w)))) rq = Response status text ->
     is_http_error status = false -> json_loads text = Some result ->
     summary_text_of result = Ok v ->
     exists w', call_gemini_api json_loads transport system_prompt user_query api_key w = (Ok v, w') /\
       posts w' = (posts w ++ [rq; rq; rq])%list /\ sleeps w' = (sleeps w ++ [1; 2])%list) /\
  (forall user_query schema system_prompt api_key b0 b1 status text result v,
     let rq := structured_request user_query schema system_prompt api_key in
     transport (length (posts w)) rq = Response 429 b0 ->
     transport (S (length (posts w))) rq = Response 429 b1 ->
     transport (S (S (length (posts w)))) rq = Response status text ->
     is_http_error status = false -> json_loads text = Some result ->
     quiz_of_result json_loads result = Ok v ->
     exists w', call_gemini_api_structured json_loads transport
                  user_query schema system_prompt api_key w = (Ok v, w') /\
       posts w' = (posts w ++ [rq; rq; rq])%list /\ sleeps w' = (sleeps w ++ [1; 2])%list).
Proof.
  split; [|split; [|split]].
  - intros sp uq key rq. unfold call_gemini_api, bind at 1, log_call. cbn [fst snd].
    match goal with |- context [invoke_with_retries ?j ?t ?p ?q ?a ?b ?c ?w1] =>
      pose proof (InvokerFacts.invoke_trace j t _ p q a b c w1) as H end.
    destruct (invoke_with_retries _ _ _ _ _ _ _ _) as [r w'].
    destruct H as (n & Hn & Hp & Hs & _ & _ & Hre & Hlast & Herr).
    exists n. cbn [posts sleeps] in *. repeat split; auto; lia.
  - intros uq sc sp key rq. unfold call_gemini_api_structured, bind at 1, log_call. cbn [fst snd].
    match goal with |- context [invoke_with_retries ?j ?t ?p ?q ?a ?b ?c ?w1] =>
      pose proof (InvokerFacts.invoke_trace j t _ p q a b c w1) as H end.
    destruct (invoke_with_retries _ _ _ _ _ _ _ _) as [r w'].
    destruct H as (n & Hn & Hp & Hs & _ & _ & Hre & Hlast & Herr).
    exists n. cbn [posts sleeps] in *. repeat split; auto; lia.
  - intros sp uq key b0 b1 st txt res v rq H0 H1 H2 Hh Hj Hv.
    unfold call_gemini_api, bind at 1, log_call. cbn [fst snd].
    erewrite InvokerFacts.invoke_two_429_then_ok; cbn [posts sleeps]; eauto.
  - intros uq sc sp key b0 b1 st txt res v rq H0 H1 H2 Hh Hj Hv.
    unfold call_gemini_api_structured, bind at 1, log_call. cbn [fst snd].
    erewrite InvokerFacts.invoke_two_429_then_ok; cbn [posts sleeps]; eauto.
Qed.

Lemma invoker_retry_policy_witness :
  (exists w', call_gemini_api Mock.decode (Mock.busy_then "ENV") "persona" "query" "KEY" Mock.w0
                = (Ok (JStr "SUMMARY"), w') /\
     length (posts w') = 3%nat /\ sleeps w' = [1; 2]) /\
  (exists w', call_gemini_api_structured Mock.decode (Mock.busy_then "ENV-QUIZ")
                "query" quiz_schema "persona" "KEY" Mock.w0
                = (Ok (JObj [("questions", JArr [Mock.question 3 "a"; Mock.question 1 "b";
                                                 Mock.question 2 "c"])]), w') /\
     length (posts w') = 3%nat /\ sleeps w' = [1; 2]).
Proof.
  destruct (invoker_retry_policy Mock.decode (Mock.busy_then "ENV") Mock.w0)
    as (_ & _ & Hs & _).
  destruct (invoker_retry_policy Mock.decode (Mock.busy_then "ENV-QUIZ") Mock.w0)
    as (_ & _ & _ & Hq).
  split.
  - destruct (Hs "persona" "query" "KEY" "busy" "busy" 200 "ENV" (Mock.envelope "SUMMARY")
                (JStr "SUMMARY") eq_refl eq_refl eq_refl eq_refl eq_refl eq_refl)
      as (w' & Hrun & Hp & Hsl).
    exists w'. split; [exact Hrun|]. rewrite Hp, Hsl. split; reflexivity.
  - destruct (Hq "query" quiz_schema "persona" "KEY" "busy" "busy" 200 "ENV-QUIZ"
                (Mock.envelope "QUIZ")
                (JObj [("questions", JArr [Mock.question 3 "a"; Mock.question 1 "b";
                                           Mock.question 2 "c"])])
                eq_refl eq_refl eq_refl eq_refl eq_refl eq_refl)
      as (w' & Hrun & Hp & Hsl).
    exists w'. split; [exact Hrun|]. rewrite Hp, Hsl. split; reflexivity.
Defined.

(* ================================================================== *)
(** * Facts about the pipeline *)

Module PipelineFacts.

Lemma bind_ret {A B} (a : A) (k : A -> M B) : bind (ret a) k = k a.
Proof. reflexivity. Qed.

(** Saving the summary touches only the file system. *)
Lemma save_summary_frame (open_ok : string -> bool) (path : string) (s : Json) (w : World) :
  let '(_, w') := save_summary open_ok path s w in
  posts w' = posts w /\ sleeps w' = sleeps w /\ calls w' = calls w.
Proof.
  unfold save_summary, write_file.
  destruct (open_ok path); [destruct s|]; cbn; auto.
Qed.

(** One call of [_call_gemini_api]: one entry in the call log, and only its
    own request posted. *)
Lemma call_gemini_api_log (json_loads : string -> option Json)
    (transport : nat -> Request -> PostResult) (sp q key : string) (w : World) :
  let '(_, w') := call_gemini_api json_loads transport sp q key w in
  calls w' = (calls w ++ [(sp, q)])%list /\
  exists n, posts w' = (posts w ++ repeat (summary_request sp q key) n)%list.
Proof.
  unfold call_gemini_api, bind at 1, log_call. cbn [fst snd].
  match goal with |- context [invoke_with_retries ?j ?t ?p ?r ?a ?b ?c ?w1] =>
    pose proof (InvokerFacts.invoke_trace j t _ p r a b c w1) as H end.
  revert H. destruct (invoke_with_retries _ _ _ _ _ _ _ _) as [r w']. intros H.
  destruct H as (n & _ & Hp & _ & Hc & _). cbn [calls posts] in *.
  split; [exact Hc | exists n; exact Hp].
Qed.

Lemma assoc_assoc_set (k : string) (v : Json) (kvs : list (string * Json)) :
  assoc k (assoc_set k v kvs) = Some v.
Proof.
  induction kvs as [|[k' v'] r IH]; cbn.
  - rewrite String.eqb_refl. reflexivity.
  - destruct (String.eqb k k') eqn:E; cbn; rewrite E; [reflexivity | exact IH].
Qed.

(** The renumbering loop keeps the order and the length, needs a dict at
    every position and sets its [questionNumber] to [n + i]. *)
Lemma renumber_from_spec (n : Z) (items items' : list Json) :
  renumber_from n items = Ok items' ->
  length items' = length items /\
  forall i x, nth_error items i = Some x ->
    exists kvs, x = JObj kvs /\
      nth_error items' i = Some (JObj (assoc_set "questionNumber" (JNum (n + Z.of_nat i)) kvs)).
Proof.
  revert n items'. induction items as [|q rest IH]; intros n items' H.
  - cbn in H. injection H as <-. split; [reflexivity|]. intros [|i] x Hx; discriminate.
  - cbn in H. destruct q as [| | | | |kvs]; cbn in H; try discriminate.
    destruct (renumber_from (n + 1) rest) as [rest'|e] eqn:E; cbn in H; [|discriminate].
    injection H as <-. destruct (IH _ _ E) as [Hlen Hnth].
    split; [cbn; rewrite Hlen; reflexivity|].
    intros [|i] x Hx; cbn in Hx.
    + injection Hx as <-. exists kvs. split; [reflexivity|]. cbn. rewrite Z.add_0_r. reflexivity.
    + destruct (Hnth i x Hx) as (kvs' & -> & Hi). exists kvs'. split; [reflexivity|].
      cbn [nth_error]. rewrite Hi.
      replace (n + 1 + Z.of_nat i) with (n + Z.of_nat (S i)) by lia. reflexivity.
Qed.

(** After [renumber_questions], a [questions] list is the upstream list
    with each dict renumbered in place. *)
Lemma renumber_questions_spec (upstream q : Json) (l : list Json) :
  renumber_questions upstream = Ok q ->
  dict_get q "questions" JNull = Ok (JArr l) ->
  exists l0, dict_get upstream "questions" JNull = Ok (JArr l0) /\
    length l = length l0 /\
    forall i x0, nth_error l0 i = Some x0 ->
      exists kvs, x0 = JObj kvs /\
        nth_error l i = Some (JObj (assoc_set "questionNumber" (JNum (Z.of_nat i + 1)) kvs)).
Proof.
  intros H Hq. unfold renumber_questions in H.
  destruct upstream as [| | | | |kvs0]; cbn [dict_get rbind] in H; try discriminate.
  destruct (assoc "questions" kvs0) as [qs|] eqn:Ea.
  - destruct (py_iter qs) as [items|e] eqn:Ei; cbn [rbind] in H; [|discriminate].
    destruct (renumber_from 1 items) as [items'|e] eqn:Er; cbn [rbind] in H; [|discriminate].
    destruct qs as [| | | |l0|]; cbn [py_iter] in Ei; try discriminate.
    + (* a string: only the empty one gets through, and it stays *)
      injection Ei as <-. injection H as <-. cbn [dict_get] in Hq. rewrite Ea in Hq. discriminate.
    + (* a list: replaced by the renumbered dicts *)
      injection Ei as <-. injection H as <-.
      cbn [dict_get] in Hq. rewrite assoc_assoc_set in Hq. injection Hq as <-.
      exists l0. cbn [dict_get]. rewrite Ea. split; [reflexivity|].
      destruct (renumber_from_spec 1 l0 items' Er) as [Hlen Hnth].
      split; [exact Hlen|]. intros i x0 Hx0.
      destruct (Hnth i x0 Hx0) as (kvs & -> & Hi). exists kvs. split; [reflexivity|].
      rewrite Hi. replace (1 + Z.of_nat i) with (Z.of_nat i + 1) by lia. reflexivity.
    + injection Ei as <-. injection H as <-. cbn [dict_get] in Hq. rewrite Ea in Hq. discriminate.
  - cbn [rbind py_iter renumber_from] in H. injection H as <-. cbn [dict_get] in Hq. rewrite Ea in Hq. discriminate.
Qed.

Lemma bind_run {A B} (m : M A) (k : A -> M B) (w : World) :
  bind m k w = match m w with
               | (Ok a, w') => k a w'
               | (Err e, w') => (Err e, w')
               end.
Proof. reflexivity. Qed.

(** The structured invoker when the first response is a success. *)
Lemma structured_first_ok (json_loads : string -> option Json)
    (transport : nat -> Request -> PostResult) uq schema sp key w status text result v :
  transport (length (posts w)) (structured_request uq schema sp key) = Response status text ->
  is_http_error status = false -> json_loads text = Some result ->
  quiz_of_result json_loads result = Ok v ->
  exists w', call_gemini_api_structured json_loads transport uq schema sp key w = (Ok v, w').
Proof.
  intros H0 Hh Hj Hp. unfold call_gemini_api_structured. rewrite bind_run. unfold log_call.
  cbv beta iota.
  erewrite (InvokerFacts.invoke_first_ok json_loads transport);
    [eexists; reflexivity | exact H0 | exact Hh | exact Hj | exact Hp].
Qed.

(** A [questions] value that is not a list, an empty string or an empty
    dict makes the renumbering loop raise [TypeError]. *)
Lemma renumber_non_list (kvs : list (string * Json)) (v : Json) :
  assoc "questions" kvs = Some v ->
  (forall l, v <> JArr l) -> v <> JStr EmptyString -> v <> JObj [] ->
  renumber_questions (JObj kvs) = Err TypeError.
Proof.
  intros Ha Hl Hs Ho. unfold renumber_questions. cbn [dict_get rbind]. rewrite Ha.
  destruct v as [| | |str|l|kvs']; try reflexivity.
  - destruct str as [|c str]; [contradiction|reflexivity].
  - exfalso. exact (Hl l eq_refl).
  - destruct kvs' as [|[k x] r]; [contradiction|reflexivity].
Qed.

(** A payload that decodes to a dict with a [questions] key goes through
    the normalisation unchanged. *)
Lemma quiz_of_result_passes (json_loads : string -> option Json) result payload kvs v :
  structured_payload result = Ok (Some payload) ->
  json_loads payload = Some (JObj kvs) -> assoc "questions" kvs = Some v ->
  quiz_of_result json_loads result = Ok (JObj kvs).
Proof.
  intros Hp Hj Ha. unfold quiz_of_result. rewrite Hp. cbn [rbind]. rewrite Hj.
  unfold normalize_quiz. cbn [is_dict]. rewrite Ha. reflexivity.
Qed.

End PipelineFacts.

(* ================================================================== *)
(** * Credential gating (C7) *)

(** C7 counterexample: with an empty credential and a blank source text,
    [create_quiz_from_text] raises the blank-source error, not the
    credential error, because the source is checked first. *)
Lemma credential_gate_counterexample :
  create_quiz_from_text Mock.decode (Mock.ok_with "ENV-QUIZ") "   " 3 "easy" EmptyString Mock.w0
  = (Err (ValueError "Source content for quiz generation is empty."), Mock.w0).
Proof. reflexivity. Qed.

(** C7 (amended): with an empty credential, [generate_summary] raises the
    credential error, and [create_quiz_from_text] raises the credential
    error when the source text is not blank and the blank-source error
    otherwise; in every case the state is untouched, so no request is
    posted and the invoker is never called. *)
Theorem credential_gate (json_loads : string -> option Json)
    (transport : nat -> Request -> PostResult) (open_ok : string -> bool)
    (text path source : string) (num_questions : Z) (difficulty : string) (w : World) :
  generate_summary json_loads transport open_ok text path EmptyString w
  = (Err (ValueError "Gemini API Key is required for summarization."), w) /\
  create_quiz_from_text json_loads transport source num_questions difficulty EmptyString w
  = (Err (ValueError (if Py.str_truthy (Py.strip source)
                      then "Gemini API Key is required for quiz generation."
                      else "Source content for quiz generation is empty.")), w).
Proof.
  split; [reflexivity|].
  unfold create_quiz_from_text. destruct (Py.str_truthy (Py.strip source)); reflexivity.
Qed.

(* ================================================================== *)
(** * Short texts are summarized in one call (C6) *)

(** C6: for a text of at most [CHUNK_SIZE] characters and a non-empty
    credential, [generate_summary] makes exactly one invoker call, the
    final-stage one, whose query is the whole text, and every request it
    posts is that call's request. *)
Theorem generate_summary_short_text (json_loads : string -> option Json)
    (transport : nat -> Request -> PostResult) (open_ok : string -> bool)
    (text path api_key : string) (w : World) :
  Py.len text <= Chunk.CHUNK_SIZE -> Py.str_truthy api_key = true ->
  let '(_, w') := generate_summary json_loads transport open_ok text path api_key w in
  calls w' = (calls w ++ [(final_system_prompt, text)])%list /\
  exists n, posts w' = (posts w ++ repeat (summary_request final_system_prompt text api_key) n)%list.
Proof.
  intros Hlen Hk.
  unfold generate_summary. rewrite Hk. cbn [negb].
  unfold final_stage_input.
  destruct (Z.ltb_spec Chunk.CHUNK_SIZE (Py.len text)) as [Hlt|_]; [lia|].
  rewrite PipelineFacts.bind_ret, PipelineFacts.bind_run.
  pose proof (PipelineFacts.call_gemini_api_log json_loads transport
                final_system_prompt text api_key w) as Hc.
  revert Hc.
  destruct (call_gemini_api json_loads transport final_system_prompt text api_key w)
    as [[s|e] w1]; intros [Hc Hp]; cbv beta iota; [|exact (conj Hc Hp)].
  rewrite PipelineFacts.bind_run.
  pose proof (PipelineFacts.save_summary_frame open_ok path s w1) as Hs. revert Hs.
  destruct (save_summary open_ok path s w1) as [[u|e'] w2]; intros (Hp2 & _ & Hc2);
    cbv beta iota; unfold ret; rewrite Hc2, Hp2; exact (conj Hc Hp).
Qed.

Lemma generate_summary_short_text_witness :
  Py.len "Short text." <= Chunk.CHUNK_SIZE /\ Py.str_truthy "KEY" = true /\
  let '(_, w') := generate_summary Mock.decode (Mock.ok_with "ENV") (fun _ => true)
                    "Short text." "summary.txt" "KEY" Mock.w0 in
  calls w' = (calls Mock.w0 ++ [(final_system_prompt, "Short text.")])%list /\
  exists n, posts w' = (posts Mock.w0 ++
                        repeat (summary_request final_system_prompt "Short text." "KEY") n)%list.
Proof.
  split; [apply Z.leb_le; reflexivity|]. split; [reflexivity|].
  apply (generate_summary_short_text Mock.decode (Mock.ok_with "ENV") (fun _ => true)
           "Short text." "summary.txt" "KEY" Mock.w0);
    [apply Z.leb_le; reflexivity | reflexivity].
Defined.

(* ================================================================== *)
(** * Persisting the summary (C9) *)

(** C9: once the final-stage call returns a summary string [s], a
    successful [open] makes [generate_summary] return [s] with the output
    file holding exactly [s] (other files untouched), and a failing [open]
    makes it raise [IOError] for the output path instead. *)
Theorem generate_summary_persists (json_loads : string -> option Json)
    (transport : nat -> Request -> PostResult) (open_ok : string -> bool)
    (text path api_key final_input s : string) (w w1 w2 : World) :
  Py.str_truthy api_key = true ->
  final_stage_input json_loads transport text api_key w = (Ok final_input, w1) ->
  call_gemini_api json_loads transport final_system_prompt final_input api_key w1
    = (Ok (JStr s), w2) ->
  (open_ok path = true ->
     exists w3, generate_summary json_loads transport open_ok text path api_key w
                = (Ok (JStr s), w3) /\
       files w3 path = Some s /\ (forall p, p <> path -> files w3 p = files w2 p)) /\
  (open_ok path = false ->
     exists cause, generate_summary json_loads transport open_ok text path api_key w
                   = (Err (IOError path cause), w2)).
Proof.
  intros Hk Hf Hc. unfold generate_summary. rewrite Hk. cbn [negb].
  rewrite PipelineFacts.bind_run, Hf. cbv beta iota.
  rewrite PipelineFacts.bind_run, Hc. cbv beta iota.
  rewrite PipelineFacts.bind_run. unfold save_summary, write_file.
  split; intros Ho; rewrite Ho.
  - eexists. split; [reflexivity|]. cbn [files]. unfold update_file. split.
    + rewrite String.eqb_refl. reflexivity.
    + intros p Hp. apply String.eqb_neq in Hp. rewrite Hp. reflexivity.
  - eexists. reflexivity.
Qed.

Lemma generate_summary_persists_witness :
  exists w3, generate_summary Mock.decode (Mock.ok_with "ENV") (fun _ => true)
               "Short text." "summary.txt" "KEY" Mock.w0 = (Ok (JStr "SUMMARY"), w3) /\
    files w3 "summary.txt" = Some "SUMMARY".
Proof.
  destruct (generate_summary_persists Mock.decode (Mock.ok_with "ENV") (fun _ => true)
              "Short text." "summary.txt" "KEY" "Short text." "SUMMARY" Mock.w0
              Mock.w0
              {| posts := [summary_request final_system_prompt "Short text." "KEY"];
                 sleeps := []; calls := [(final_system_prompt, "Short text.")];
                 files := fun _ => None |}
              eq_refl eq_refl eq_refl) as [Hok _].
  destruct (Hok eq_refl) as (w3 & Hrun & Hfile & _).
  exists w3. split; assumption.
Defined.

(* ================================================================== *)
(** * Renumbering the questions (C4) *)

(** C4: when [create_quiz_from_text] returns a quiz whose [questions] is a
    list [l], that list is the one the invoker returned, position by
    position, each question dict with its [questionNumber] set to its
    index plus one (and nothing else changed); in particular
    [l[i]['questionNumber'] == i + 1] for every index [i]. *)
Theorem create_quiz_renumbers (json_loads : string -> option Json)
    (transport : nat -> Request -> PostResult) (source : string) (num_questions : Z)
    (difficulty api_key : string) (w w' : World) (quiz : Json) (l : list Json) :
  create_quiz_from_text json_loads transport source num_questions difficulty api_key w
    = (Ok quiz, w') ->
  dict_get quiz "questions" JNull = Ok (JArr l) ->
  exists upstream l0,
    call_gemini_api_structured json_loads transport (quiz_user_query source) quiz_schema
      (quiz_system_prompt num_questions difficulty) api_key w = (Ok upstream, w') /\
    dict_get upstream "questions" JNull = Ok (JArr l0) /\
    length l = length l0 /\
    (forall i x0, nth_error l0 i = Some x0 ->
       exists kvs, x0 = JObj kvs /\
         nth_error l i = Some (JObj (assoc_set "questionNumber" (JNum (Z.of_nat i + 1)) kvs))) /\
    (forall i x, nth_error l i = Some x ->
       getitem_key x "questionNumber" = Ok (JNum (Z.of_nat i + 1))).
Proof.
  intros H Hq. unfold create_quiz_from_text in H.
  destruct (negb (Py.str_truthy (Py.strip source))); [discriminate|].
  destruct (negb (Py.str_truthy api_key)); [discriminate|].
  rewrite PipelineFacts.bind_run in H.
  destruct (call_gemini_api_structured json_loads transport (quiz_user_query source) quiz_schema
              (quiz_system_prompt num_questions difficulty) api_key w)
    as [[upstream|e] w1] eqn:Ec; cbv beta iota in H; [|discriminate].
  unfold lift in H. injection H as Hr <-.
  destruct (PipelineFacts.renumber_questions_spec upstream quiz l Hr Hq)
    as (l0 & Hl0 & Hlen & Hnth).
  exists upstream, l0. split; [reflexivity|]. split; [exact Hl0|].
  split; [exact Hlen|]. split; [exact Hnth|].
  intros i x Hx.
  assert (Hi : (i < length l0)%nat).
  { rewrite <- Hlen. apply nth_error_Some. rewrite Hx. discriminate. }
  apply nth_error_Some in Hi. destruct (nth_error l0 i) as [x0|] eqn:E0; [|contradiction].
  destruct (Hnth i x0 E0) as (kvs & _ & Hli). rewrite Hx in Hli. injection Hli as ->.
  cbn [getitem_key]. rewrite PipelineFacts.assoc_assoc_set. reflexivity.
Qed.

Lemma create_quiz_renumbers_witness :
  let run := create_quiz_from_text Mock.decode (Mock.ok_with "ENV-QUIZ")
               "Photosynthesis converts light to energy." 3 "easy" "VALIDKEY" Mock.w0 in
  run = (Ok (JObj [("questions", JArr [Mock.question 1 "a"; Mock.question 2 "b";
                                       Mock.question 3 "c"])]), snd run) /\
  forall i x, nth_error [Mock.question 1 "a"; Mock.question 2 "b"; Mock.question 3 "c"] i
                = Some x ->
    getitem_key x "questionNumber" = Ok (JNum (Z.of_nat i + 1)).
Proof.
  intros run. assert (Hrun : run = (Ok (JObj [("questions", JArr [Mock.question 1 "a";
                         Mock.question 2 "b"; Mock.question 3 "c"])]), snd run))
    by reflexivity.
  split; [exact Hrun|].
  destruct (create_quiz_renumbers Mock.decode (Mock.ok_with "ENV-QUIZ")
              "Photosynthesis converts light to energy." 3 "easy" "VALIDKEY" Mock.w0 (snd run)
              _ [Mock.question 1 "a"; Mock.question 2 "b"; Mock.question 3 "c"]
              Hrun eq_refl) as (_ & _ & _ & _ & _ & _ & Hnum).
  exact Hnum.
Defined.

(* ================================================================== *)
(** * Malformed structured output degrades to an empty quiz (C5) *)

(** C5: when the envelope carries a text payload that does not decode, or
    decodes to a non-dict, or to a dict without [questions], the processing
    of the response yields [{"questions": []}]; so when that response is
    the first one, [create_quiz_from_text] (non-blank source, non-empty
    credential) returns [{"questions": []}] instead of raising. *)
Theorem malformed_payload_degrades (json_loads : string -> option Json)
    (result : Json) (payload : string) :
  structured_payload result = Ok (Some payload) ->
  (json_loads payload = None \/
   (exists v, json_loads payload = Some v /\ is_dict v = false) \/
   (exists kvs, json_loads payload = Some (JObj kvs) /\ assoc "questions" kvs = None)) ->
  quiz_of_result json_loads result = Ok empty_quiz /\
  (forall transport source num_questions difficulty api_key w status text,
     Py.str_truthy (Py.strip source) = true -> Py.str_truthy api_key = true ->
     transport (length (posts w))
       (structured_request (quiz_user_query source) quiz_schema
          (quiz_system_prompt num_questions difficulty) api_key) = Response status text ->
     is_http_error status = false -> json_loads text = Some result ->
     exists w', create_quiz_from_text json_loads transport source num_questions difficulty
                  api_key w = (Ok empty_quiz, w')).
Proof.
  intros Hp Hm.
  assert (Hq : quiz_of_result json_loads result = Ok empty_quiz).
  { unfold quiz_of_result. rewrite Hp. cbn [rbind].
    destruct Hm as [Hn | [(v & Hv & Hd) | (kvs & Hv & Ha)]]; rewrite ?Hn, ?Hv.
    - reflexivity.
    - unfold normalize_quiz. rewrite Hd. reflexivity.
    - unfold normalize_quiz. cbn [is_dict]. rewrite Ha. reflexivity. }
  split; [exact Hq|].
  intros transport source nq d key w st txt Hs Hk H0 Hh Hj.
  destruct (PipelineFacts.structured_first_ok json_loads transport _ _ _ _ w st txt result
              empty_quiz H0 Hh Hj Hq) as (w1 & Hc).
  exists w1. unfold create_quiz_from_text. rewrite Hs, Hk. cbn [negb].
  rewrite PipelineFacts.bind_run, Hc. reflexivity.
Qed.

Lemma malformed_payload_degrades_witness :
  structured_payload (Mock.envelope "not json") = Ok (Some "not json") /\
  Mock.decode "not json" = None /\
  exists w', create_quiz_from_text Mock.decode (Mock.ok_with "ENV-BAD")
               "Photosynthesis converts light to energy." 3 "easy" "VALIDKEY" Mock.w0
             = (Ok empty_quiz, w').
Proof.
  split; [reflexivity|]. split; [reflexivity|].
  destruct (malformed_payload_degrades Mock.decode (Mock.envelope "not json") "not json"
              eq_refl (or_introl eq_refl)) as [_ Hrun].
  apply (Hrun (Mock.ok_with "ENV-BAD") "Photosynthesis converts light to energy." 3 "easy"
           "VALIDKEY" Mock.w0 200 "ENV-BAD"); reflexivity.
Defined.

(* ================================================================== *)
(** * A non-list [questions] value escapes the normalisation (C10) *)

(** C10: a payload that decodes to a dict whose [questions] value is not a
    list (nor an empty string or empty dict) passes the normalisation
    unchanged, and [create_quiz_from_text] then raises [TypeError] in the
    renumbering loop instead of returning a quiz. *)
Theorem non_list_questions_raise (json_loads : string -> option Json)
    (transport : nat -> Request -> PostResult) (source : string) (num_questions : Z)
    (difficulty api_key : string) (w : World) (status : Z) (text payload : string)
    (result v : Json) (kvs : list (string * Json)) :
  Py.str_truthy (Py.strip source) = true -> Py.str_truthy api_key = true ->
  transport (length (posts w))
    (structured_request (quiz_user_query source) quiz_schema
       (quiz_system_prompt num_questions difficulty) api_key) = Response status text ->
  is_http_error status = false -> json_loads text = Some result ->
  structured_payload result = Ok (Some payload) ->
  json_loads payload = Some (JObj kvs) -> assoc "questions" kvs = Some v ->
  (forall l, v <> JArr l) -> v <> JStr EmptyString -> v <> JObj [] ->
  quiz_of_result json_loads result = Ok (JObj kvs) /\
  exists w', create_quiz_from_text json_loads transport source num_questions difficulty
               api_key w = (Err TypeError, w').
Proof.
  intros Hs Hk H0 Hh Hj Hp Hl Ha Hnl Hns Hno.
  pose proof (PipelineFacts.quiz_of_result_passes json_loads result payload kvs v Hp Hl Ha)
    as Hq.
  split; [exact Hq|].
  destruct (PipelineFacts.structured_first_ok json_loads transport _ _ _ _ w status text result
              (JObj kvs) H0 Hh Hj Hq) as (w1 & Hc).
  exists w1. unfold create_quiz_from_text. rewrite Hs, Hk. cbn [negb].
  rewrite PipelineFacts.bind_run, Hc. cbv beta iota. unfold lift.
  rewrite (PipelineFacts.renumber_non_list kvs v Ha Hnl Hns Hno). reflexivity.
Qed.

Lemma non_list_questions_raise_witness :
  exists w', create_quiz_from_text Mock.decode (Mock.ok_with "ENV-NUM")
               "Photosynthesis converts light to energy." 3 "easy" "VALIDKEY" Mock.w0
             = (Err TypeError, w').
Proof.
  destruct (non_list_questions_raise Mock.decode (Mock.ok_with "ENV-NUM")
              "Photosynthesis converts light to energy." 3 "easy" "VALIDKEY" Mock.w0
              200 "ENV-NUM" "NUM" (Mock.envelope "NUM") (JNum 5)
              [("questions", JNum 5)]
              eq_refl eq_refl eq_refl eq_refl eq_refl eq_refl eq_refl eq_refl
              (fun l H => ltac:(discriminate H)) ltac:(discriminate) ltac:(discriminate))
    as [_ Hrun].
  exact Hrun.
Defined.

(* ================================================================== *)
(** * Further properties of the code *)

(* ------------------------------------------------------------------ *)
(** ** [str.strip] *)

Module StripFacts.

Import StrDefs.

Lemma rev_str_involutive (s : string) : rev_str (rev_str s) = s.
Proof.
  unfold rev_str. rewrite list_ascii_of_string_of_list_ascii, rev_involutive.
  apply string_of_list_ascii_of_string.
Qed.

Lemma length_list_ascii (s : string) : length (list_ascii_of_string s) = String.length s.
Proof. induction s as [|c s IH]; cbn; [reflexivity | rewrite IH; reflexivity]. Qed.

Lemma length_string_of_list (l : list ascii) : String.length (string_of_list_ascii l) = length l.
Proof. induction l as [|c l IH]; cbn; [reflexivity | rewrite IH; reflexivity]. Qed.

Lemma rev_str_length (s : string) : String.length (rev_str s) = String.length s.
Proof.
  unfold rev_str. rewrite length_string_of_list, length_rev. apply length_list_ascii.
Qed.

Lemma list_ascii_append (a b : string) :
  list_ascii_of_string (a ++ b) = (list_ascii_of_string a ++ list_ascii_of_string b)%list.
Proof. induction a as [|c a IH]; cbn; [reflexivity | rewrite IH; reflexivity]. Qed.

Lemma string_of_list_append (a b : list ascii) :
  string_of_list_ascii (a ++ b) = string_of_list_ascii a ++ string_of_list_ascii b.
Proof. induction a as [|c a IH]; cbn; [reflexivity | rewrite IH; reflexivity]. Qed.

Lemma rev_str_append (a b : string) : rev_str (a ++ b) = rev_str b ++ rev_str a.
Proof.
  unfold rev_str. rewrite list_ascii_append, rev_app_distr. apply string_of_list_append.
Qed.

Lemma lstrip_prefix (s : string) : exists pre, s = pre ++ Py.lstrip s.
Proof.
  induction s as [|c s IH]; cbn.
  - exists EmptyString. reflexivity.
  - destruct (Py.isspace c).
    + destruct IH as [pre Hpre]. exists (String c pre). cbn. rewrite <- Hpre. reflexivity.
    + exists EmptyString. reflexivity.
Qed.

Lemma lstrip_head (s : string) c r : Py.lstrip s = String c r -> Py.isspace c = false.
Proof.
  induction s as [|d s IH]; cbn; [discriminate|].
  destruct (Py.isspace d) eqn:E; [exact IH|]. intros H. injection H as <- _. exact E.
Qed.

Lemma lstrip_length (s : string) : (String.length (Py.lstrip s) <= String.length s)%nat.
Proof. induction s as [|c s IH]; cbn; [lia|]. destruct (Py.isspace c); cbn; lia. Qed.

Lemma lstrip_idem (s : string) : Py.lstrip (Py.lstrip s) = Py.lstrip s.
Proof.
  destruct (Py.lstrip s) as [|c r] eqn:E; [reflexivity|].
  cbn. rewrite (lstrip_head s c r E). reflexivity.
Qed.

Lemma lstrip_nonspace_head c r : Py.isspace c = false -> Py.lstrip (String c r) = String c r.
Proof. intros H. cbn. rewrite H. reflexivity. Qed.

Lemma strip_eq (s : string) : Py.strip s = rev_str (Py.lstrip (rev_str (Py.lstrip s))).
Proof. reflexivity. Qed.

(** [s.strip()] is never longer than [s]. *)
Lemma strip_length (s : string) : (String.length (Py.strip s) <= String.length s)%nat.
Proof.
  rewrite strip_eq, rev_str_length.
  pose proof (lstrip_length (rev_str (Py.lstrip s))). rewrite rev_str_length in H.
  pose proof (lstrip_length s). lia.
Qed.

(** A prefix of a left-stripped string is left-stripped. *)
Lemma lstrip_of_prefix (s r t : string) : Py.lstrip s = r ++ t -> Py.lstrip r = r.
Proof.
  destruct r as [|c r']; [reflexivity|]. intros H.
  apply lstrip_nonspace_head. exact (lstrip_head s c (r' ++ t) H).
Qed.

(** Stripping twice is stripping once. *)
Lemma strip_idem (s : string) : Py.strip (Py.strip s) = Py.strip s.
Proof.
  rewrite !strip_eq.
  destruct (lstrip_prefix (rev_str (Py.lstrip s))) as [pre Hpre].
  assert (Hm : Py.lstrip s = rev_str (Py.lstrip (rev_str (Py.lstrip s))) ++ rev_str pre).
  { rewrite <- (rev_str_involutive (Py.lstrip s)) at 1. rewrite Hpre at 1.
    rewrite rev_str_append. reflexivity. }
  rewrite (lstrip_of_prefix _ _ _ Hm).
  rewrite rev_str_involutive, lstrip_idem. reflexivity.
Qed.

End StripFacts.

(* ------------------------------------------------------------------ *)
(** ** The chunks [chunk_text] emits *)

Module ChunkShape.
Import Chunk.

(** One span from a start inside the text: it is non-empty, at most
    [max_chunk_size] long and ends inside the text. *)
Lemma span_end_bounds (text : string) (M O s : Z) :
  0 <= O -> O < M -> 0 <= s < Py.len text ->
  s < span_end text M O s /\ span_end text M O s <= s + M /\
  span_end text M O s <= Py.len text.
Proof.
  intros HO HOM Hs. unfold span_end. set (L := Py.len text).
  destruct (Z.ltb_spec (Z.min (s + M) L) L) as [Hlt|Hge].
  - assert (Hm : Z.min (s + M) L = s + M) by lia. rewrite Hm in *.
    pose proof (PyFacts.rfind_lt_end period text s (s + M) ltac:(unfold L in *; lia)).
    pose proof (PyFacts.rfind_lt_end newline text s (s + M) ltac:(unfold L in *; lia)).
    set (bp := Z.max _ _). assert (bp < s + M) by (unfold bp; lia).
    destruct (Z.ltb_spec (s + M - O) bp); lia.
  - lia.
Qed.

Lemma loop_span_bounds (text : string) (M O : Z) :
  0 <= O -> O < M -> 2 * O < M + 2 ->
  forall fuel s spans, 0 <= s -> loop fuel text M O s = Some spans ->
  forall a b, In (a, b) spans -> 0 <= a < b /\ b <= a + M /\ b <= Py.len text.
Proof.
  intros HO HOM H2. induction fuel as [|f IH]; intros s spans Hs H a b Hin.
  - cbn in H. destruct (s <? Py.len text); [discriminate|]. injection H as <-. destruct Hin.
  - rewrite ChunkFacts.loop_unfold in H. destruct (Z.ltb_spec s (Py.len text)) as [Hlt|];
      [|injection H as <-; destruct Hin].
    destruct (loop f text M O _) as [rest|] eqn:E; cbn in H; [|discriminate].
    injection H as <-. destruct Hin as [Heq|Hin].
    + injection Heq as <- <-. pose proof (span_end_bounds text M O s HO HOM (conj Hs Hlt)). lia.
    + pose proof (ChunkFacts.next_start_progress text M O s HOM H2 (conj Hs Hlt)).
      eapply IH; [|exact E|exact Hin]. lia.
Qed.

Lemma slice_length (text : string) (a b : Z) :
  0 <= a <= b -> b <= Py.len text -> Py.len (Py.slice text a b) <= b - a.
Proof.
  intros Hab Hb. unfold Py.slice.
  rewrite !PyFacts.adjust_in_range by lia.
  destruct (Z.ltb_spec a b).
  - unfold Py.len at 1. pose proof (PyFacts.substring_length_le (Z.to_nat a) (Z.to_nat (b - a)) text). lia.
  - cbn. lia.
Qed.

End ChunkShape.

(** Every chunk [chunk_text] emits, for [0 <= overlap < max_chunk_size] with
    [2 * overlap < max_chunk_size + 2] (the defaults qualify), is non-empty,
    has no leading or trailing whitespace, and is at most
    [max_chunk_size] characters long. *)
Theorem chunk_text_chunks_fit (text : string) (max_chunk_size overlap : Z) (fuel : nat)
    (chunks : list string) :
  0 <= overlap -> overlap < max_chunk_size -> 2 * overlap < max_chunk_size + 2 ->
  Chunk.chunk_text_fuel fuel text max_chunk_size overlap = Some chunks ->
  forall c, In c chunks -> c <> EmptyString /\ Py.strip c = c /\ Py.len c <= max_chunk_size.
Proof.
  intros HO HOM H2 H c Hc. unfold Chunk.chunk_text_fuel in H.
  destruct (Chunk.loop fuel text max_chunk_size overlap 0) as [spans|] eqn:E; [|discriminate].
  injection H as <-. unfold Chunk.chunks_of_spans in Hc.
  apply filter_In in Hc as [Hin Ht]. apply in_map_iff in Hin as ([a b] & <- & Hab).
  destruct (ChunkShape.loop_span_bounds text _ _ HO HOM H2 fuel 0 spans ltac:(lia) E a b Hab)
    as (Ha & Hb & HL).
  split; [intros Heq; rewrite Heq in Ht; discriminate|].
  split; [apply StripFacts.strip_idem|].
  pose proof (ChunkShape.slice_length text a b ltac:(lia) HL).
  pose proof (StripFacts.strip_length (Py.slice text a b)). unfold Py.len in *. lia.
Qed.

Lemma chunk_text_chunks_fit_witness :
  (0 <= 1000 /\ 1000 < 15000 /\ 2 * 1000 < 15000 + 2) /\
  Chunk.chunk_text_fuel 20 "  one. two.  " 15000 1000 = Some ["one. two."] /\
  ("one. two." <> EmptyString /\ Py.strip "one. two." = "one. two." /\
   Py.len "one. two." <= 15000).
Proof.
  split; [lia|].
  assert (H : Chunk.chunk_text_fuel 20 "  one. two.  " 15000 1000 = Some ["one. two."])
    by (vm_compute; reflexivity).
  split; [exact H|].
  exact (chunk_text_chunks_fit "  one. two.  " 15000 1000 20 _ ltac:(lia) ltac:(lia) ltac:(lia)
           H "one. two." (or_introl eq_refl)).
Defined.

(* ------------------------------------------------------------------ *)
(** ** [generate_summary]: calls made and files touched *)

Module SummaryFacts.
Import PipelineFacts.

(** One call of [_call_gemini_api] logs itself and leaves the files alone. *)
Lemma call_trace (json_loads : string -> option Json)
    (transport : nat -> Request -> PostResult) (sp q key : string) (w : World) :
  let '(_, w') := call_gemini_api json_loads transport sp q key w in
  calls w' = (calls w ++ [(sp, q)])%list /\ files w' = files w.
Proof.
  unfold call_gemini_api, bind at 1, log_call. cbn [fst snd].
  match goal with |- context [invoke_with_retries ?j ?t ?p ?r ?a ?b ?c ?w1] =>
    pose proof (InvokerFacts.invoke_trace j t _ p r a b c w1) as H end.
  revert H. destruct (invoke_with_retries _ _ _ _ _ _ _ _) as [r w']. intros H.
  destruct H as (n & _ & _ & _ & Hc & Hf & _). cbn [calls files] in *. auto.
Qed.

Lemma summarize_segments_trace (json_loads : string -> option Json)
    (transport : nat -> Request -> PostResult) (key : string) (chunks : list string) :
  forall w,
  let '(r, w') := summarize_segments json_loads transport key chunks w in
  files w' = files w /\
  (forall rs, r = Ok rs -> length rs = length chunks /\
     calls w' = (calls w ++ map (fun c => (segment_system_prompt, segment_user_query c)) chunks)%list).
Proof.
  induction chunks as [|c rest IH]; intros w.
  - cbn. split; [reflexivity|]. intros rs H. injection H as <-. rewrite app_nil_r. auto.
  - cbn [summarize_segments]. rewrite bind_run.
    pose proof (call_trace json_loads transport segment_system_prompt
                  (segment_user_query c) key w) as Hc. revert Hc.
    destruct (call_gemini_api _ _ _ _ _ w) as [[s|e] w1]; intros [Hc Hf]; cbv beta iota;
      [|split; [exact Hf | discriminate]].
    rewrite bind_run. specialize (IH w1). revert IH.
    destruct (summarize_segments _ _ _ rest w1) as [[ss|e] w2]; intros [Hf2 Hr];
      cbv beta iota; unfold ret; (split; [congruence|]); [|discriminate].
    intros rs H. injection H as <-. destruct (Hr ss eq_refl) as [Hl Hc2].
    split; [cbn; rewrite Hl; reflexivity|].
    rewrite Hc2, Hc. cbn [map]. rewrite <- app_assoc. reflexivity.
Qed.

Lemma strs_of_spec (items : list Json) (strs : list string) :
  strs_of items = Ok strs -> length strs = length items.
Proof.
  revert strs. induction items as [|x rest IH]; intros strs H.
  - cbn in H. injection H as <-. reflexivity.
  - destruct x; cbn in H; try discriminate.
    destruct (strs_of rest) as [r|e] eqn:E; cbn in H; [|discriminate].
    injection H as <-. cbn. rewrite (IH r eq_refl). reflexivity.
Qed.

Lemma strs_of_map (items : list Json) (strs : list string) :
  strs_of items = Ok strs -> items = map JStr strs.
Proof.
  revert strs. induction items as [|x rest IH]; intros strs H.
  - cbn in H. injection H as <-. reflexivity.
  - destruct x; cbn in H; try discriminate.
    destruct (strs_of rest) as [r|e] eqn:E; cbn in H; [|discriminate].
    injection H as <-. cbn. rewrite (IH r eq_refl). reflexivity.
Qed.

(** The final-stage input of a long text: the segment summaries, one call
    per chunk in order, joined with the separator. *)
Lemma final_stage_input_trace (json_loads : string -> option Json)
    (transport : nat -> Request -> PostResult) (text key : string) (w : World) :
  let '(r, w') := final_stage_input json_loads transport text key w in
  files w' = files w /\
  (forall fi, r = Ok fi ->
     if Chunk.CHUNK_SIZE <? Py.len text then
       exists segs, length segs = length (Chunk.chunk_text_defaults text) /\
         fi = String.concat segment_separator segs /\
         calls w' = (calls w ++ map (fun c => (segment_system_prompt, segment_user_query c)) (Chunk.chunk_text_defaults text))%list
     else fi = text /\ w' = w).
Proof.
  unfold final_stage_input. destruct (Chunk.CHUNK_SIZE <? Py.len text).
  - rewrite bind_run.
    pose proof (summarize_segments_trace json_loads transport key
                  (Chunk.chunk_text_defaults text) w) as H. revert H.
    destruct (summarize_segments _ _ _ _ w) as [[rs|e] w1]; intros [Hf Hr]; cbv beta iota;
      unfold lift; [|split; [exact Hf | discriminate]].
    split; [exact Hf|]. intros fi Hj. destruct (Hr rs eq_refl) as [Hl Hc].
    unfold py_join in Hj. destruct (strs_of rs) as [strs|e] eqn:Es; cbn in Hj; [|discriminate].
    injection Hj as <-. exists strs. rewrite (strs_of_spec _ _ Es), Hl. auto.
  - cbn. split; [reflexivity|]. intros fi H. injection H as <-. auto.
Qed.

(** What [generate_summary] does to the files. *)
Lemma generate_summary_frame (json_loads : string -> option Json)
    (transport : nat -> Request -> PostResult) (open_ok : string -> bool)
    (text path api_key : string) (w : World) :
  let '(r, w') := generate_summary json_loads transport open_ok text path api_key w in
  (forall p, p <> path -> files w' p = files w p) /\
  (forall e, r = Err e -> (forall cause, e <> IOError path cause) -> files w' = files w).
Proof.
  unfold generate_summary. destruct (negb (Py.str_truthy api_key)).
  - cbn. auto.
  - rewrite PipelineFacts.bind_run.
    pose proof (final_stage_input_trace json_loads transport text api_key w) as H1.
    revert H1. destruct (final_stage_input _ _ _ _ w) as [[fi|e] w1]; intros [Hf1 _];
      cbv beta iota; [|split; [intros p _; rewrite Hf1; reflexivity | auto]].
    rewrite PipelineFacts.bind_run.
    pose proof (call_trace json_loads transport final_system_prompt fi api_key w1)
      as H2. revert H2.
    destruct (call_gemini_api _ _ _ _ _ w1) as [[v|e] w2]; intros [_ Hf2]; cbv beta iota;
      [|split; [intros p _; rewrite Hf2, Hf1; reflexivity | intros; congruence]].
    rewrite PipelineFacts.bind_run. unfold save_summary, write_file.
    destruct (open_ok path).
    + assert (Hu : forall c p, p <> path -> update_file path c (files w2) p = files w p).
      { intros c p Hp. unfold update_file. apply String.eqb_neq in Hp. rewrite Hp.
        congruence. }
      destruct v; cbn [files bind ret];
        (split; [intros p Hp; apply Hu; exact Hp |]);
        intros e He Hne; try discriminate; injection He as <-; exfalso; eapply Hne; reflexivity.
    + cbn. split; [intros p _; congruence | intros e He Hne].
      injection He as <-. exfalso. eapply Hne. reflexivity.
Qed.

End SummaryFacts.

(** [generate_summary] changes no file but its output file, and when it
    raises anything other than the [IOError] of saving, it has changed no
    file at all. *)
Theorem generate_summary_file_frame (json_loads : string -> option Json)
    (transport : nat -> Request -> PostResult) (open_ok : string -> bool)
    (text path api_key : string) (w : World) :
  let '(r, w') := generate_summary json_loads transport open_ok text path api_key w in
  (forall p, p <> path -> files w' p = files w p) /\
  (forall e, r = Err e -> (forall cause, e <> IOError path cause) -> files w' = files w).
Proof. exact (SummaryFacts.generate_summary_frame json_loads transport open_ok text path api_key w). Qed.

(** For a text longer than [CHUNK_SIZE], a successful [generate_summary]
    has first called the model once per chunk, in chunk order, with the
    segment prompt, every call returning a string (the segment summaries
    [segs]); then, on the world those calls left, once with the final prompt
    on [segs] joined by the separator, and that call returned the result; it
    made no other call. *)
Theorem generate_summary_long_text_calls (json_loads : string -> option Json)
    (transport : nat -> Request -> PostResult) (open_ok : string -> bool)
    (text path api_key : string) (w w' : World) (v : Json) :
  Chunk.CHUNK_SIZE < Py.len text ->
  generate_summary json_loads transport open_ok text path api_key w = (Ok v, w') ->
  exists segs w1 w2,
    summarize_segments json_loads transport api_key (Chunk.chunk_text_defaults text) w
      = (Ok (map JStr segs), w1) /\
    call_gemini_api json_loads transport final_system_prompt
      (String.concat segment_separator segs) api_key w1 = (Ok v, w2) /\
    calls w' = (calls w
                ++ map (fun c => (segment_system_prompt, segment_user_query c))
                       (Chunk.chunk_text_defaults text)
                ++ [(final_system_prompt, String.concat segment_separator segs)])%list.
Proof.
  intros Hlen. unfold generate_summary. destruct (negb (Py.str_truthy api_key));
    [cbn; discriminate|].
  rewrite PipelineFacts.bind_run. unfold final_stage_input.
  apply Z.ltb_lt in Hlen. rewrite Hlen. rewrite PipelineFacts.bind_run.
  pose proof (SummaryFacts.summarize_segments_trace json_loads transport api_key
                (Chunk.chunk_text_defaults text) w) as H1. revert H1.
  destruct (summarize_segments _ _ _ _ w) as [[rs|e] w1] eqn:Eseg; intros [_ Hr1];
    cbv beta iota; [|discriminate].
  destruct (Hr1 rs eq_refl) as [_ Hc1].
  unfold lift, py_join. destruct (strs_of rs) as [segs|e] eqn:Es; cbn [rbind];
    [|discriminate].
  pose proof (SummaryFacts.strs_of_map rs segs Es) as ->.
  rewrite PipelineFacts.bind_run.
  pose proof (SummaryFacts.call_trace json_loads transport final_system_prompt
                (String.concat segment_separator segs) api_key w1) as H2. revert H2.
  destruct (call_gemini_api _ _ _ _ _ w1) as [[v2|e] w2] eqn:Ecall; intros [Hc2 _];
    cbv beta iota; [|discriminate].
  rewrite PipelineFacts.bind_run. unfold save_summary, write_file.
  intros Hrun. exists segs, w1, w2.
  destruct (open_ok path); [|discriminate].
  destruct v2; cbn [bind ret] in Hrun; try discriminate; injection Hrun as <- <-;
    cbn [calls]; (split; [first [exact Eseg | reflexivity]|]);
    (split; [first [exact Ecall | reflexivity]|]);
    rewrite Hc2, Hc1, <- app_assoc; reflexivity.
Qed.

Lemma generate_summary_long_text_calls_witness :
  let text := MockMore.repeat_str 15001 "a" in
  let '(r, w') := generate_summary Mock.decode (Mock.ok_with "ENV") (fun _ => true)
                    text "summary.txt" "KEY" Mock.w0 in
  Chunk.CHUNK_SIZE < Py.len text /\ r = Ok (JStr "SUMMARY") /\
  exists segs w1 w2,
    summarize_segments Mock.decode (Mock.ok_with "ENV") "KEY"
      (Chunk.chunk_text_defaults text) Mock.w0 = (Ok (map JStr segs), w1) /\
    call_gemini_api Mock.decode (Mock.ok_with "ENV") final_system_prompt
      (String.concat segment_separator segs) "KEY" w1 = (Ok (JStr "SUMMARY"), w2) /\
    calls w' = (calls Mock.w0
                ++ map (fun c => (segment_system_prompt, segment_user_query c))
                       (Chunk.chunk_text_defaults text)
                ++ [(final_system_prompt, String.concat segment_separator segs)])%list.
Proof.
  intros text.
  assert (Hl : Chunk.CHUNK_SIZE < Py.len text) by (vm_compute; reflexivity).
  assert (Hr : fst (generate_summary Mock.decode (Mock.ok_with "ENV") (fun _ => true)
                      text "summary.txt" "KEY" Mock.w0) = Ok (JStr "SUMMARY"))
    by (vm_compute; reflexivity).
  destruct (generate_summary _ _ _ text _ _ Mock.w0) as [r w'] eqn:E.
  cbn [fst] in Hr. subst r. split; [exact Hl|]. split; [reflexivity|].
  exact (generate_summary_long_text_calls Mock.decode (Mock.ok_with "ENV") (fun _ => true)
           text "summary.txt" "KEY" Mock.w0 w' (JStr "SUMMARY") Hl E).
Defined.

(** When the final call returns a [text] that is not a string (the code
    does not check its type) and the output file can be opened,
    [generate_summary] raises the [IOError] of saving, caused by
    [f.write]'s [TypeError], after [open(..., 'w')] has already truncated
    the output file to empty; no other file changes. *)
Theorem generate_summary_non_string_truncates (json_loads : string -> option Json)
    (transport : nat -> Request -> PostResult) (open_ok : string -> bool)
    (text path api_key final_input : string) (v : Json) (w w1 w2 : World) :
  Py.str_truthy api_key = true ->
  final_stage_input json_loads transport text api_key w = (Ok final_input, w1) ->
  call_gemini_api json_loads transport final_system_prompt final_input api_key w1
    = (Ok v, w2) ->
  (forall s, v <> JStr s) -> open_ok path = true ->
  exists w3, generate_summary json_loads transport open_ok text path api_key w
             = (Err (IOError path TypeError), w3) /\
    files w3 path = Some EmptyString /\ (forall p, p <> path -> files w3 p = files w2 p).
Proof.
  intros Hk Hf Hc Hv Ho. unfold generate_summary. rewrite Hk. cbn [negb].
  rewrite PipelineFacts.bind_run, Hf. cbv beta iota.
  rewrite PipelineFacts.bind_run, Hc. cbv beta iota.
  rewrite PipelineFacts.bind_run. unfold save_summary, write_file. rewrite Ho.
  destruct v as [| | |s| |]; try (exfalso; exact (Hv s eq_refl));
    (eexists; split; [reflexivity|]); cbn [files]; unfold update_file;
    (split; [rewrite String.eqb_refl; reflexivity
            | intros p Hp; apply String.eqb_neq in Hp; rewrite Hp; reflexivity]).
Qed.

Lemma generate_summary_non_string_truncates_witness :
  exists w3, generate_summary MockMore.decode (Mock.ok_with "ENV-NUMTEXT") (fun _ => true)
               "Short text." "summary.txt" "KEY" Mock.w0
             = (Err (IOError "summary.txt" TypeError), w3) /\
    files w3 "summary.txt" = Some EmptyString.
Proof.
  destruct (generate_summary_non_string_truncates MockMore.decode (Mock.ok_with "ENV-NUMTEXT")
              (fun _ => true) "Short text." "summary.txt" "KEY" "Short text." (JNum 7)
              Mock.w0 Mock.w0
              {| posts := [summary_request final_system_prompt "Short text." "KEY"];
                 sleeps := []; calls := [(final_system_prompt, "Short text.")];
                 files := fun _ => None |}
              eq_refl eq_refl eq_refl ltac:(discriminate) eq_refl) as (w3 & Hrun & Hfile & _).
  exists w3. split; assumption.
Defined.

(* ------------------------------------------------------------------ *)
(** ** The invokers on a first response that is not an HTTP error *)

Module InvokerMore.

Section First.
Variable json_loads : string -> option Json.
Variable transport : nat -> Request -> PostResult.
Variable A : Type.
Variable process : Json -> Res A.
Variable rq : Request.
Variables api_error_prefix unexpected_prefix exhausted_msg : string.

Lemma invoke_first_process_err (w : World) status text result e :
  transport (length (posts w)) rq = Response status text ->
  is_http_error status = false -> json_loads text = Some result -> process result = Err e ->
  invoke_with_retries json_loads transport process rq
    api_error_prefix unexpected_prefix exhausted_msg w =
  (Err (Unexpected unexpected_prefix e),
   {| posts := (posts w ++ [rq])%list; sleeps := sleeps w;
      calls := calls w; files := files w |}).
Proof.
  intros H0 Hh Hj Hp.
  unfold invoke_with_retries. cbn [seq for_attempts max_retries].
  unfold bind, attempt_once, bind, post. cbn [posts sleeps calls files].
  rewrite H0. cbn. rewrite Hh, Hj, Hp. reflexivity.
Qed.

(** A successful loop returns what [process] made of some response. *)
Lemma for_attempts_ok (attempts : list nat) :
  forall w v w',
  for_attempts (attempt_once json_loads transport process rq api_error_prefix unexpected_prefix)
    attempts (raise (RetriesExhausted exhausted_msg)) w = (Ok v, w') ->
  exists result, process result = Ok v.
Proof.
  induction attempts as [|a rest IH]; intros w v w' H; [discriminate|].
  cbn [for_attempts] in H. rewrite PipelineFacts.bind_run in H.
  unfold attempt_once in H. rewrite PipelineFacts.bind_run in H. unfold post in H.
  destruct (transport (length (posts w)) rq) as [st txt|]; cbv beta iota in H;
    [|discriminate].
  destruct (is_http_error st).
  - destruct (Nat.ltb a (max_retries - 1) && retryable_status st);
      cbn in H; [eapply IH; exact H | discriminate].
  - destruct (json_loads txt) as [res|]; [|discriminate].
    destruct (process res) as [x|e] eqn:Ep; [|discriminate].
    cbn in H. injection H as <- _. exists res. exact Ep.
Qed.

Lemma invoke_ok (w w' : World) v :
  invoke_with_retries json_loads transport process rq
    api_error_prefix unexpected_prefix exhausted_msg w = (Ok v, w') ->
  exists result, process result = Ok v.
Proof. apply for_attempts_ok. Qed.

End First.

Lemma summary_text_of_no_candidates (kvs : list (string * Json)) :
  truthy (match assoc "candidates" kvs with Some c => c | None => JNull end) = false ->
  summary_text_of (JObj kvs) =
  Err (NoCandidates (match assoc "promptFeedback" kvs with
                     | Some f => f | None => JStr "No detailed feedback." end)).
Proof.
  intros Ht. unfold summary_text_of. cbn [contains rbind].
  destruct (assoc "candidates" kvs) as [c|] eqn:E; cbn [getitem_key rbind negb];
    rewrite ?E; cbn [rbind]; [rewrite Ht|]; cbn [negb dict_get rbind]; reflexivity.
Qed.

Lemma renumber_from_dicts (l : list Json) :
  forall n, match renumber_from n l with
            | Ok _ => forall x, In x l -> is_dict x = true
            | Err e => e = TypeError /\ exists x, In x l /\ is_dict x = false
            end.
Proof.
  induction l as [|q rest IH]; intros n; cbn [renumber_from].
  - cbn. intros x [].
  - destruct q as [| | | | |kvs]; cbn [setitem rbind];
      try (split; [reflexivity | eexists; split; [left; reflexivity | reflexivity]]).
    specialize (IH (n + 1)). destruct (renumber_from (n + 1) rest) as [r|e]; cbn [rbind]; cbv beta iota.
    + intros x [<-|Hx]; [reflexivity | exact (IH x Hx)].
    + destruct IH as [He (x & Hx & Hd)]. split; [exact He|]. exists x. split; [right|]; assumption.
Qed.

(** A quiz that passed the normalisation is a dict with [questions]. *)
Lemma quiz_of_result_dict (json_loads : string -> option Json) result v :
  quiz_of_result json_loads result = Ok v ->
  exists kvs q, v = JObj kvs /\ assoc "questions" kvs = Some q.
Proof.
  assert (He : exists kvs q, empty_quiz = JObj kvs /\ assoc "questions" kvs = Some q)
    by (do 2 eexists; split; reflexivity).
  unfold quiz_of_result. destruct (structured_payload result) as [[p|]|e]; cbn [rbind];
    [| |discriminate].
  - destruct (json_loads p) as [parsed|]; intros H; injection H as <-; [|exact He].
    unfold normalize_quiz. destruct parsed as [| | | | |kvs]; cbn [is_dict]; try exact He.
    destruct (assoc "questions" kvs) as [q|] eqn:Ea; [|exact He].
    exists kvs, q. auto.
  - destruct (dict_get result "promptFeedback" (JObj [])); cbn [rbind]; [|discriminate].
    destruct (dict_get _ "blockReason" _); cbn [rbind]; discriminate.
Qed.

Lemma renumber_questions_dict (kvs : list (string * Json)) q v :
  assoc "questions" kvs = Some q -> renumber_questions (JObj kvs) = Ok v ->
  exists kvs' q', v = JObj kvs' /\ assoc "questions" kvs' = Some q'.
Proof.
  intros Ha H. unfold renumber_questions in H. cbn [dict_get rbind] in H. rewrite Ha in H.
  destruct (py_iter q) as [items|e]; cbn [rbind] in H; [|discriminate].
  destruct (renumber_from 1 items) as [items'|e]; cbn [rbind] in H; [|discriminate].
  destruct q; try (injection H as <-; exists kvs; eexists; split; [reflexivity | exact Ha]).
  injection H as <-. do 2 eexists. split; [reflexivity|].
  apply PipelineFacts.assoc_assoc_set.
Qed.

End InvokerMore.

(** Neither invoker retries a failure that is not an HTTP error: when the
    first post fails at the transport level, or its 2xx body does not
    decode, or the code after decoding raises, the invoker raises the
    "unexpected error" exception wrapping that cause after exactly one post
    and no sleep. *)
Theorem invoke_non_http_failure_no_retry (json_loads : string -> option Json)
    (transport : nat -> Request -> PostResult) {A : Type} (process : Json -> Res A)
    (rq : Request) (api_error_prefix unexpected_prefix exhausted_msg : string)
    (w : World) (cause : Exn) :
  (transport (length (posts w)) rq = TransportFailure /\ cause = ConnectionError) \/
  (exists status text,
     transport (length (posts w)) rq = Response status text /\
     is_http_error status = false /\
     ((json_loads text = None /\ cause = JSONDecodeError) \/
      exists result, json_loads text = Some result /\ process result = Err cause)) ->
  invoke_with_retries json_loads transport process rq
    api_error_prefix unexpected_prefix exhausted_msg w =
  (Err (Unexpected unexpected_prefix cause),
   {| posts := (posts w ++ [rq])%list; sleeps := sleeps w;
      calls := calls w; files := files w |}).
Proof.
  intros H.
  unfold invoke_with_retries. cbn [seq for_attempts max_retries].
  unfold bind, attempt_once, bind, post. cbn [posts sleeps calls files].
  destruct H as [[H0 ->]|(st & txt & H0 & Hh & [[Hj ->]|(res & Hj & Hp)])];
    rewrite H0; cbn; [reflexivity| |]; rewrite Hh, Hj; [|rewrite Hp]; reflexivity.
Qed.

Lemma invoke_non_http_failure_no_retry_witness :
  invoke_with_retries MockMore.decode MockMore.down summary_text_of
    (summary_request final_system_prompt "Some text." "KEY")
    "Failed to generate summary due to API error: "
    "An unexpected error occurred during summary generation: "
    "Failed to generate summary after multiple retries." Mock.w0 =
  (Err (Unexpected "An unexpected error occurred during summary generation: " ConnectionError),
   {| posts := [summary_request final_system_prompt "Some text." "KEY"]; sleeps := [];
      calls := []; files := files Mock.w0 |}).
Proof.
  apply (invoke_non_http_failure_no_retry MockMore.decode MockMore.down summary_text_of
           (summary_request final_system_prompt "Some text." "KEY")
           "Failed to generate summary due to API error: "
           "An unexpected error occurred during summary generation: "
           "Failed to generate summary after multiple retries." Mock.w0 ConnectionError).
  left. split; reflexivity.
Defined.

(** [_call_gemini_api] on a 2xx response that is a dict whose
    [candidates] is missing or empty: the "no candidates" exception, with
    the response's [promptFeedback] or "No detailed feedback.", wrapped as
    an unexpected error, after one post and no retry. *)
Theorem call_gemini_api_no_candidates (json_loads : string -> option Json)
    (transport : nat -> Request -> PostResult) (sp q key : string) (w : World)
    (status : Z) (text : string) (kvs : list (string * Json)) :
  transport (length (posts w)) (summary_request sp q key) = Response status text ->
  is_http_error status = false ->
  json_loads text = Some (JObj kvs) ->
  truthy (match assoc "candidates" kvs with Some c => c | None => JNull end) = false ->
  call_gemini_api json_loads transport sp q key w =
  (Err (Unexpected "An unexpected error occurred during summary generation: "
          (NoCandidates (match assoc "promptFeedback" kvs with
                         | Some f => f | None => JStr "No detailed feedback." end))),
   {| posts := (posts w ++ [summary_request sp q key])%list; sleeps := sleeps w;
      calls := (calls w ++ [(sp, q)])%list; files := files w |}).
Proof.
  intros H0 Hh Hj Ht. unfold call_gemini_api. rewrite PipelineFacts.bind_run.
  unfold log_call. cbv beta iota.
  erewrite (InvokerMore.invoke_first_process_err json_loads transport);
    [reflexivity | exact H0 | exact Hh | exact Hj |].
  apply InvokerMore.summary_text_of_no_candidates. exact Ht.
Qed.

Lemma call_gemini_api_no_candidates_witness :
  call_gemini_api MockMore.decode (Mock.ok_with "BLOCKED") final_system_prompt "Some text."
    "KEY" Mock.w0 =
  (Err (Unexpected "An unexpected error occurred during summary generation: "
          (NoCandidates (JObj [("blockReason", JStr "SAFETY")]))),
   {| posts := [summary_request final_system_prompt "Some text." "KEY"]; sleeps := [];
      calls := [(final_system_prompt, "Some text.")]; files := files Mock.w0 |}).
Proof.
  apply (call_gemini_api_no_candidates MockMore.decode (Mock.ok_with "BLOCKED")
           final_system_prompt "Some text." "KEY" Mock.w0 200 "BLOCKED"
           [("promptFeedback", JObj [("blockReason", JStr "SAFETY")])]);
    reflexivity.
Defined.

(** [_call_gemini_api_structured] on a 2xx response that is a dict whose
    [candidates] is missing or empty: the "invalid or empty response
    structure" exception with [promptFeedback.blockReason] (or
    "Unknown reason" when there is no feedback or no reason), wrapped as an
    unexpected error, after one post and no retry; a [promptFeedback] that
    is not a dict makes [.get] raise [AttributeError] instead. *)
Theorem call_gemini_api_structured_blocked (json_loads : string -> option Json)
    (transport : nat -> Request -> PostResult) (uq : string) (schema : Json)
    (sp key : string) (w : World) (status : Z) (text : string) (kvs : list (string * Json)) :
  transport (length (posts w)) (structured_request uq schema sp key) = Response status text ->
  is_http_error status = false ->
  json_loads text = Some (JObj kvs) ->
  truthy (match assoc "candidates" kvs with Some c => c | None => JNull end) = false ->
  call_gemini_api_structured json_loads transport uq schema sp key w =
  (Err (Unexpected "An unexpected error occurred during API call: "
          (match assoc "promptFeedback" kvs with
           | None => InvalidStructure (JStr "Unknown reason")
           | Some (JObj pfs) =>
               InvalidStructure (match assoc "blockReason" pfs with
                                 | Some r => r | None => JStr "Unknown reason" end)
           | Some _ => AttributeError
           end)),
   {| posts := (posts w ++ [structured_request uq schema sp key])%list; sleeps := sleeps w;
      calls := (calls w ++ [(sp, uq)])%list; files := files w |}).
Proof.
  intros H0 Hh Hj Ht. unfold call_gemini_api_structured. rewrite PipelineFacts.bind_run.
  unfold log_call. cbv beta iota.
  erewrite (InvokerMore.invoke_first_process_err json_loads transport);
    [reflexivity | exact H0 | exact Hh | exact Hj |].
  unfold quiz_of_result, structured_payload. cbn [dict_get rbind]. rewrite Ht.
  cbn [rbind dict_get]. destruct (assoc "promptFeedback" kvs) as [[| | | | |pfs]|];
    reflexivity.
Qed.

Lemma call_gemini_api_structured_blocked_witness :
  call_gemini_api_structured MockMore.decode (Mock.ok_with "BLOCKED") (quiz_user_query "Text.")
    quiz_schema (quiz_system_prompt 5 "easy") "KEY" Mock.w0 =
  (Err (Unexpected "An unexpected error occurred during API call: "
          (InvalidStructure (JStr "SAFETY"))),
   {| posts := [structured_request (quiz_user_query "Text.") quiz_schema
                  (quiz_system_prompt 5 "easy") "KEY"]; sleeps := [];
      calls := [(quiz_system_prompt 5 "easy", quiz_user_query "Text.")];
      files := files Mock.w0 |}).
Proof.
  apply (call_gemini_api_structured_blocked MockMore.decode (Mock.ok_with "BLOCKED")
           (quiz_user_query "Text.") quiz_schema (quiz_system_prompt 5 "easy") "KEY" Mock.w0
           200 "BLOCKED" [("promptFeedback", JObj [("blockReason", JStr "SAFETY")])]);
    reflexivity.
Defined.

(** When the first part of the first candidate has no [text] key, the
    structured invoker parses the default ['{}'], which [json.loads] reads
    as an empty dict, and so returns the empty quiz [{"questions": []}]
    without raising, after one post. *)
Theorem call_gemini_api_structured_missing_text (json_loads : string -> option Json)
    (transport : nat -> Request -> PostResult) (uq : string) (schema : Json)
    (sp key : string) (w : World) (status : Z) (text : string)
    (kvs c0 content p0 : list (string * Json)) (cs ps : list Json) :
  transport (length (posts w)) (structured_request uq schema sp key) = Response status text ->
  is_http_error status = false ->
  json_loads text = Some (JObj kvs) ->
  assoc "candidates" kvs = Some (JArr (JObj c0 :: cs)) ->
  assoc "content" c0 = Some (JObj content) ->
  assoc "parts" content = Some (JArr (JObj p0 :: ps)) ->
  assoc "text" p0 = None ->
  json_loads "{}" = Some (JObj []) ->
  call_gemini_api_structured json_loads transport uq schema sp key w =
  (Ok empty_quiz,
   {| posts := (posts w ++ [structured_request uq schema sp key])%list; sleeps := sleeps w;
      calls := (calls w ++ [(sp, uq)])%list; files := files w |}).
Proof.
  intros H0 Hh Hj Hc Hco Hp Ht Hempty.
  assert (Hne : content <> []) by (intros ->; discriminate Hp).
  unfold call_gemini_api_structured. rewrite PipelineFacts.bind_run.
  unfold log_call. cbv beta iota.
  erewrite (InvokerFacts.invoke_first_ok json_loads transport);
    [reflexivity | exact H0 | exact Hh | exact Hj |].
  destruct content as [|kv content]; [contradiction|].
  unfold quiz_of_result, structured_payload.
  repeat progress (cbn [dict_get getitem_key getitem_idx rbind truthy nth_error];
                   rewrite ?Hc, ?Hco, ?Hp, ?Ht).
  replace (Py.strip "{}") with "{}" by reflexivity. rewrite Hempty. reflexivity.
Qed.

Lemma call_gemini_api_structured_missing_text_witness :
  call_gemini_api_structured MockMore.decode (Mock.ok_with "ENV-NOTEXT") (quiz_user_query "Text.")
    quiz_schema (quiz_system_prompt 5 "easy") "KEY" Mock.w0 =
  (Ok empty_quiz,
   {| posts := [structured_request (quiz_user_query "Text.") quiz_schema
                  (quiz_system_prompt 5 "easy") "KEY"]; sleeps := [];
      calls := [(quiz_system_prompt 5 "easy", quiz_user_query "Text.")];
      files := files Mock.w0 |}).
Proof.
  apply (call_gemini_api_structured_missing_text MockMore.decode (Mock.ok_with "ENV-NOTEXT")
           (quiz_user_query "Text.") quiz_schema (quiz_system_prompt 5 "easy") "KEY" Mock.w0
           200 "ENV-NOTEXT"
           [("candidates", JArr [JObj [("content", JObj [("parts",
              JArr [JObj [("inlineData", JNull)]])])]])]
           [("content", JObj [("parts", JArr [JObj [("inlineData", JNull)]])])]
           [("parts", JArr [JObj [("inlineData", JNull)]])]
           [("inlineData", JNull)] [] []);
    reflexivity.
Defined.

(** Whatever the model answers, a successful [create_quiz_from_text]
    returns a dict that has a [questions] key. *)
Theorem create_quiz_result_has_questions (json_loads : string -> option Json)
    (transport : nat -> Request -> PostResult) (source : string) (num_questions : Z)
    (difficulty api_key : string) (w w' : World) (quiz : Json) :
  create_quiz_from_text json_loads transport source num_questions difficulty api_key w
    = (Ok quiz, w') ->
  exists kvs q, quiz = JObj kvs /\ assoc "questions" kvs = Some q.
Proof.
  unfold create_quiz_from_text.
  destruct (negb (Py.str_truthy (Py.strip source))); [discriminate|].
  destruct (negb (Py.str_truthy api_key)); [discriminate|].
  rewrite PipelineFacts.bind_run. unfold call_gemini_api_structured.
  rewrite PipelineFacts.bind_run. unfold log_call. cbv beta iota.
  match goal with |- context [invoke_with_retries ?j ?t ?p ?r ?a ?b ?c ?w1] =>
    pose proof (InvokerMore.invoke_ok j t _ p r a b c w1) as Hinv end.
  destruct (invoke_with_retries _ _ _ _ _ _ _ _) as [[up|e] w1]; [|discriminate].
  destruct (Hinv w1 up eq_refl) as [result Hres].
  destruct (InvokerMore.quiz_of_result_dict json_loads result up Hres) as (kvs & q & -> & Ha).
  unfold lift. intros H. injection H as Hr _.
  exact (InvokerMore.renumber_questions_dict kvs q quiz Ha Hr).
Qed.

Lemma create_quiz_result_has_questions_witness :
  let '(r, w') := create_quiz_from_text Mock.decode (Mock.ok_with "ENV-QUIZ") "Text." 3 "easy"
                    "KEY" Mock.w0 in
  exists quiz, r = Ok quiz /\ exists kvs q, quiz = JObj kvs /\ assoc "questions" kvs = Some q.
Proof.
  assert (H : exists quiz, fst (create_quiz_from_text Mock.decode (Mock.ok_with "ENV-QUIZ")
                                  "Text." 3 "easy" "KEY" Mock.w0) = Ok quiz)
    by (eexists; vm_compute; reflexivity).
  destruct (create_quiz_from_text _ _ _ _ _ _ Mock.w0) as [r w'] eqn:E.
  destruct H as [quiz Hq]. cbn [fst] in Hq. subst r. exists quiz. split; [reflexivity|].
  exact (create_quiz_result_has_questions Mock.decode (Mock.ok_with "ENV-QUIZ") "Text." 3
           "easy" "KEY" Mock.w0 w' quiz E).
Defined.

(** When the structured call returns a dict whose [questions] is a list,
    [create_quiz_from_text] raises [TypeError] exactly when some element
    of that list is not a dict (the [q['questionNumber'] = ...] assignment
    fails on it); the world is the one the call left. *)
Theorem create_quiz_non_dict_question (json_loads : string -> option Json)
    (transport : nat -> Request -> PostResult) (source : string) (num_questions : Z)
    (difficulty api_key : string) (w w' : World) (kvs : list (string * Json)) (l : list Json) :
  Py.str_truthy (Py.strip source) = true -> Py.str_truthy api_key = true ->
  call_gemini_api_structured json_loads transport (quiz_user_query source) quiz_schema
    (quiz_system_prompt num_questions difficulty) api_key w = (Ok (JObj kvs), w') ->
  assoc "questions" kvs = Some (JArr l) ->
  (create_quiz_from_text json_loads transport source num_questions difficulty api_key w
     = (Err TypeError, w') <->
   exists x, In x l /\ is_dict x = false).
Proof.
  intros Hs Hk Hc Ha. unfold create_quiz_from_text. rewrite Hs, Hk. cbn [negb].
  rewrite PipelineFacts.bind_run, Hc. cbv beta iota. unfold lift, renumber_questions.
  cbn [dict_get rbind]. rewrite Ha. cbn [py_iter rbind].
  pose proof (InvokerMore.renumber_from_dicts l 1) as Hr. revert Hr.
  destruct (renumber_from 1 l) as [items'|e]; cbn [rbind]; intros Hr.
  - split; [discriminate|]. intros (x & Hx & Hd). rewrite (Hr x Hx) in Hd.
    discriminate.
  - destruct Hr as [-> Hx]. split; [intros _; exact Hx | reflexivity].
Qed.

Lemma create_quiz_non_dict_question_witness :
  exists w',
    call_gemini_api_structured MockMore.decode (Mock.ok_with "ENV-MIXED")
      (quiz_user_query "Text.") quiz_schema (quiz_system_prompt 3 "easy") "KEY" Mock.w0
    = (Ok (JObj [("questions", JArr [Mock.question 1 "a"; JStr "oops"])]), w') /\
    create_quiz_from_text MockMore.decode (Mock.ok_with "ENV-MIXED") "Text." 3 "easy" "KEY"
      Mock.w0 = (Err TypeError, w').
Proof.
  assert (Hf : fst (call_gemini_api_structured MockMore.decode (Mock.ok_with "ENV-MIXED")
                      (quiz_user_query "Text.") quiz_schema (quiz_system_prompt 3 "easy")
                      "KEY" Mock.w0)
               = Ok (JObj [("questions", JArr [Mock.question 1 "a"; JStr "oops"])]))
    by (vm_compute; reflexivity).
  destruct (call_gemini_api_structured _ _ _ _ _ _ Mock.w0) as [r w'] eqn:E.
  cbn [fst] in Hf. subst r. exists w'. split; [reflexivity|].
  apply (create_quiz_non_dict_question MockMore.decode (Mock.ok_with "ENV-MIXED") "Text." 3
           "easy" "KEY" Mock.w0 w' [("questions", JArr [Mock.question 1 "a"; JStr "oops"])]
           [Mock.question 1 "a"; JStr "oops"] eq_refl eq_refl E eq_refl).
  exists (JStr "oops"). split; [right; left; reflexivity | reflexivity].
Defined.

(* ------------------------------------------------------------------ *)
(** ** The Flask routes *)

Module AppFacts.
Import App.

Lemma last_index_none (c : ascii) (s : string) :
  contains_char c s = false -> Py.last_index c s = None.
Proof.
  induction s as [|d s IH]; cbn; [reflexivity|].
  intros H. apply orb_false_iff in H as [Hd Hs]. rewrite (IH Hs), Hd. reflexivity.
Qed.

Lemma last_index_none_contains (c : ascii) (s : string) :
  Py.last_index c s = None -> contains_char c s = false.
Proof.
  induction s as [|d s IH]; cbn; [reflexivity|].
  destruct (Py.last_index c s); [discriminate|]. intros H.
  destruct (Ascii.eqb c d); [discriminate|]. rewrite IH; reflexivity.
Qed.

Lemma last_index_app (c : ascii) (base ext : string) :
  contains_char c ext = false ->
  Py.last_index c (base ++ String c ext) = Some (String.length base).
Proof.
  intros H. induction base as [|d base IH]; cbn.
  - rewrite (last_index_none c ext H), Ascii.eqb_refl. reflexivity.
  - rewrite IH. reflexivity.
Qed.

Lemma last_index_split (c : ascii) (s : string) (i : nat) :
  Py.last_index c s = Some i ->
  exists base ext, s = base ++ String c ext /\ contains_char c ext = false.
Proof.
  revert i. induction s as [|d s IH]; intros i H; cbn in H; [discriminate|].
  destruct (Py.last_index c s) as [j|] eqn:E.
  - destruct (IH j eq_refl) as (base & ext & -> & Hx).
    exists (String d base), ext. split; [reflexivity | exact Hx].
  - destruct (Ascii.eqb c d) eqn:Ecd; [|discriminate].
    apply Ascii.eqb_eq in Ecd as <-. exists EmptyString, s.
    split; [reflexivity | exact (last_index_none_contains c s E)].
Qed.

Lemma substring_app_prefix (a b : string) :
  substring 0 (String.length a) (a ++ b) = a.
Proof. induction a as [|d a IH]; cbn; [destruct b; reflexivity | rewrite IH; reflexivity]. Qed.

Lemma substring_app_suffix (a b : string) (k m : nat) :
  substring (String.length a + k) m (a ++ b) = substring k m b.
Proof. induction a as [|d a IH]; cbn; [reflexivity | exact IH]. Qed.

Lemma str_length_app (a b : string) : String.length (a ++ b) = (String.length a + String.length b)%nat.
Proof. induction a as [|d a IH]; cbn; [reflexivity | rewrite IH; reflexivity]. Qed.

Lemma rsplit1_app (c : ascii) (base ext : string) :
  contains_char c ext = false -> rsplit1 c (base ++ String c ext) = [base; ext].
Proof.
  intros H. unfold rsplit1. rewrite (last_index_app c base ext H).
  rewrite substring_app_prefix. f_equal. f_equal.
  rewrite str_length_app. cbn [String.length].
  replace (S (String.length base)) with (String.length base + 1)%nat by lia.
  rewrite substring_app_suffix. cbn.
  replace (String.length base + S (String.length ext) - (String.length base + 1))%nat
    with (String.length ext) by lia.
  apply ChunkFacts.substring_full.
Qed.

Lemma allowed_file_iff (filename : string) :
  exists b, allowed_file filename = Ok b /\
    (b = true <->
     exists base ext, filename = base ++ String dot ext /\ contains_char dot ext = false /\
                      lower ext = "pdf").
Proof.
  unfold allowed_file. destruct (contains_char dot filename) eqn:Ec.
  - destruct (Py.last_index dot filename) as [i|] eqn:El.
    2:{ rewrite (last_index_none_contains dot filename El) in Ec. discriminate. }
    destruct (last_index_split dot filename i El) as (base & ext & -> & Hx).
    rewrite (rsplit1_app dot base ext Hx).
    eexists. split; [reflexivity|]. cbn [existsb ALLOWED_EXTENSIONS]. rewrite orb_false_r.
    split.
    + intros He. apply String.eqb_eq in He. exists base, ext. auto.
    + intros (base' & ext' & Heq & Hx' & Hl). apply String.eqb_eq.
      pose proof (rsplit1_app dot base ext Hx) as H1.
      rewrite Heq, (rsplit1_app dot base' ext' Hx') in H1.
      injection H1 as _ <-. exact Hl.
  - exists false. split; [reflexivity|]. split; [discriminate|].
    intros (base & ext & -> & Hx & _).
    pose proof (last_index_none dot _ Ec) as H.
    rewrite (last_index_app dot base ext Hx) in H. discriminate.
Qed.


Lemma update_file_same p c fs : update_file p c fs p = Some c.
Proof. unfold update_file. rewrite String.eqb_refl. reflexivity. Qed.

Lemma update_file_other p q c fs : q <> p -> update_file p c fs q = fs q.
Proof. intros H. unfold update_file. apply String.eqb_neq in H. rewrite H. reflexivity. Qed.

Lemma remove_path_same p fs : remove_path p fs p = None.
Proof. unfold remove_path. rewrite String.eqb_refl. reflexivity. Qed.

Lemma remove_path_other p q fs : q <> p -> remove_path p fs q = fs q.
Proof. intros H. unfold remove_path. apply String.eqb_neq in H. rewrite H. reflexivity. Qed.

(** [remove_if_exists] empties its path, keeps every other path and the
    rest of the state. *)
Lemma remove_if_exists_run (p : string) (s : AppState) :
  exists fs', remove_if_exists p s =
    (Ok tt, {| world := {| posts := posts (world s); sleeps := sleeps (world s);
                           calls := calls (world s); files := fs' |};
               session := session s |}) /\
    fs' p = None /\ (forall q, q <> p -> fs' q = files (world s) q).
Proof.
  unfold remove_if_exists, abind, on_world, file_exists, remove_file, aret.
  destruct s as [[ps sl cl fs] sess]. cbn.
  destruct (fs p) eqn:E; cbn; rewrite ?E.
  - exists (remove_path p fs). split; [reflexivity|].
    split; [apply remove_path_same | intros q Hq; apply remove_path_other; exact Hq].
  - exists fs. split; [reflexivity|]. split; [exact E | reflexivity].
Qed.


Lemma gs_ok_file (json_loads : string -> option Json)
    (transport : nat -> Request -> PostResult) (open_ok : string -> bool)
    (text path api_key : string) (w w' : World) (v : Json) :
  generate_summary json_loads transport open_ok text path api_key w = (Ok v, w') ->
  exists t, v = JStr t /\ files w' path = Some t.
Proof.
  unfold generate_summary. destruct (negb (Py.str_truthy api_key)); [discriminate|].
  rewrite PipelineFacts.bind_run.
  destruct (final_stage_input _ _ _ _ w) as [[fi|e] w1]; cbv beta iota; [|discriminate].
  rewrite PipelineFacts.bind_run.
  destruct (call_gemini_api _ _ _ _ _ w1) as [[v2|e] w2]; cbv beta iota; [|discriminate].
  rewrite PipelineFacts.bind_run. unfold save_summary, write_file.
  destruct (open_ok path); [|discriminate].
  destruct v2 as [| | |t| |]; cbn; try discriminate.
  intros H. injection H as <- <-. exists t. split; [reflexivity|].
  cbn [files]. apply update_file_same.
Qed.

Lemma cq_files (json_loads : string -> option Json)
    (transport : nat -> Request -> PostResult) (source : string) (n : Z)
    (difficulty api_key : string) (w : World) :
  let '(_, w') := create_quiz_from_text json_loads transport source n difficulty api_key w in
  files w' = files w.
Proof.
  unfold create_quiz_from_text.
  destruct (negb (Py.str_truthy (Py.strip source))); [reflexivity|].
  destruct (negb (Py.str_truthy api_key)); [reflexivity|].
  rewrite PipelineFacts.bind_run. unfold call_gemini_api_structured.
  rewrite PipelineFacts.bind_run. unfold log_call. cbv beta iota.
  match goal with |- context [invoke_with_retries ?j ?t ?p ?r ?a ?b ?c ?w1] =>
    pose proof (InvokerFacts.invoke_trace j t _ p r a b c w1) as H end.
  revert H. destruct (invoke_with_retries _ _ _ _ _ _ _ _) as [[q|e] w1];
    intros (k & _ & _ & _ & _ & Hf & _); cbn [files] in Hf; [|exact Hf].
  unfold lift. exact Hf.
Qed.

(** Text-mode reading keeps a string empty or non-empty. *)
Lemma universal_newlines_truthy (t : string) :
  Py.str_truthy (universal_newlines t) = Py.str_truthy t.
Proof.
  destruct t as [|c [|c2 r]]; cbn; [reflexivity| |];
    destruct (Ascii.eqb c _); try reflexivity.
  destruct (Ascii.eqb c2 _); reflexivity.
Qed.

Definition all_space (s : string) : bool := forallb Py.isspace (list_ascii_of_string s).

Lemma lstrip_empty_iff (s : string) : Py.lstrip s = EmptyString <-> all_space s = true.
Proof.
  unfold all_space. induction s as [|c r IH]; cbn; [tauto|].
  destruct (Py.isspace c); cbn; [exact IH|]. split; discriminate.
Qed.

Lemma all_space_rev (s : string) : all_space (StrDefs.rev_str s) = all_space s.
Proof.
  unfold all_space, StrDefs.rev_str. rewrite list_ascii_of_string_of_list_ascii.
  induction (list_ascii_of_string s) as [|c l IH]; cbn; [reflexivity|].
  rewrite forallb_app, IH. cbn. rewrite andb_true_r, andb_comm. reflexivity.
Qed.

Lemma rev_str_empty (s : string) : StrDefs.rev_str s = EmptyString -> s = EmptyString.
Proof.
  intros H. pose proof (StripFacts.rev_str_length s) as Hl. rewrite H in Hl.
  destruct s; [reflexivity | discriminate].
Qed.

(** [s.strip()] is empty exactly when [s] is all whitespace. *)
Lemma strip_blank_iff (s : string) :
  Py.str_truthy (Py.strip s) = false <-> all_space s = true.
Proof.
  rewrite StripFacts.strip_eq. rewrite <- lstrip_empty_iff. split.
  - intros H. destruct (StrDefs.rev_str _) as [|c r] eqn:E; [|discriminate].
    apply rev_str_empty in E. apply lstrip_empty_iff in E.
    rewrite all_space_rev in E. apply lstrip_empty_iff in E.
    rewrite StripFacts.lstrip_idem in E. exact E.
  - intros H. rewrite H. reflexivity.
Qed.

Lemma all_space_universal_newlines (s : string) :
  all_space s = true -> all_space (universal_newlines s) = true.
Proof.
  remember (String.length s) as n eqn:Hn. assert (Hle : (String.length s <= n)%nat) by lia.
  clear Hn. revert s Hle. induction n as [|n IH]; intros [|c rest] Hle H;
    try reflexivity; [cbn in Hle; lia|].
  unfold all_space in *. cbn in H, Hle. apply andb_true_iff in H as [Hc Hr].
  cbn [universal_newlines]. destruct (Ascii.eqb c _).
  - destruct rest as [|c2 rest']; [reflexivity|].
    cbn in Hr, Hle. apply andb_true_iff in Hr as [Hc2 Hr'].
    destruct (Ascii.eqb c2 _); cbn [list_ascii_of_string forallb];
      apply andb_true_iff; (split; [reflexivity | apply IH]);
      cbn [list_ascii_of_string forallb String.length]; try lia;
      [exact Hr' | rewrite Hc2; exact Hr'].
  - cbn [list_ascii_of_string forallb]. rewrite Hc. apply IH; [lia | exact Hr].
Qed.

(** A summary blank after [strip] is still blank after text-mode
    reading. *)
Lemma strip_blank_universal_newlines (t : string) :
  Py.str_truthy (Py.strip t) = false ->
  Py.str_truthy (Py.strip (universal_newlines t)) = false.
Proof.
  rewrite !strip_blank_iff. apply all_space_universal_newlines.
Qed.

End AppFacts.

Import App.

(** [allowed_file] never raises (the [and] keeps the index [1] from being
    reached on a name without a dot), and it accepts a name exactly when
    the name is some [base], a dot and an extension without a dot whose
    lower case is ["pdf"]. *)
Theorem allowed_file_spec (filename : string) :
  exists b, allowed_file filename = Ok b /\
    (b = true <->
     exists base ext, filename = base ++ String dot ext /\ contains_char dot ext = false /\
                      lower ext = "pdf").
Proof. exact (AppFacts.allowed_file_iff filename). Qed.


(** A POST of a file whose name [allowed_file] accepts (with the stored
    PDF and the temporary text file at different paths): the route never
    raises and never calls the model; the stored PDF is gone afterwards and
    no other file but the temporary one has changed.  When both files can
    be opened, it redirects to [apikey_entry], with the temporary path in
    the session and the extracted text (the pages joined by blank lines, or
    the extraction error message, as [extract_text_from_pdf] returns it) in
    the temporary file; otherwise it renders "Error processing file: ..."
    with the session unchanged and no temporary file left. *)
Theorem pdfupload_allowed_upload (open_ok : string -> bool) (parse_pdf : string -> PdfParse)
    (secure_filename : string -> string) (exn_str : Exn -> string)
    (file : Upload) (uuid : string) (s : AppState) :
  let pdf := path_join config_upload_folder (secure_filename (up_filename file)) in
  let tmp := path_join config_upload_folder ("text_" ++ uuid ++ ".txt") in
  up_filename file <> EmptyString -> allowed_file (up_filename file) = Ok true -> pdf <> tmp ->
  let '(r, s') := pdfupload open_ok parse_pdf secure_filename exn_str POST (Some file) uuid s in
  posts (world s') = posts (world s) /\ sleeps (world s') = sleeps (world s) /\
  calls (world s') = calls (world s) /\
  files (world s') pdf = None /\
  (forall p, p <> pdf -> p <> tmp -> files (world s') p = files (world s) p) /\
  if open_ok pdf && open_ok tmp then
    r = Ok (RedirectTo "apikey_entry") /\
    session s' = update_session "temp_text_path" (Some tmp) (session s) /\
    files (world s') tmp = Some (match parse_pdf (up_data file) with
                                 | Pages ts => String.concat page_separator ts
                                 | Broken m => "Error extracting text from PDF: " ++ m
                                 end)
  else
    r = Ok (Render "pdfupload.html" (Some ("Error processing file: " ++ exn_str OSError))) /\
    session s' = session s /\ files (world s') tmp = None.
Proof.
  intros pdf tmp Hne Hal Hpt. unfold pdfupload. cbv zeta.
  change (path_join config_upload_folder (secure_filename (up_filename file))) with pdf.
  change (path_join config_upload_folder ("text_" ++ uuid ++ ".txt")) with tmp.
  clearbody pdf tmp.
  destruct (String.eqb (up_filename file) EmptyString) eqn:E0;
    [apply String.eqb_eq in E0; contradiction|].
  destruct (up_filename file) as [|c0 fn0] eqn:Efn; [contradiction|]. cbn [Py.str_truthy].
  rewrite <- Efn in *. rewrite Hal.
  destruct s as [[ps sl cl fs] sess].
  unfold abind at 1, alift. cbv beta iota.
  unfold atry, abind, on_world, write_file, remove_file, sess_set, aret.
  cbn [world session posts sleeps calls files].
  destruct (open_ok pdf) eqn:Eo1; cbn [world session posts sleeps calls files andb].
  - rewrite AppFacts.update_file_same. cbn [world session posts sleeps calls files].
    unfold extract_text_from_pdf. rewrite AppFacts.update_file_same.
    destruct (open_ok tmp) eqn:Eo2; cbn [world session posts sleeps calls files].
    + split; [reflexivity|]. split; [reflexivity|]. split; [reflexivity|].
      split; [rewrite AppFacts.update_file_other, AppFacts.remove_path_same; auto|].
      split; [intros p H1 H2; rewrite AppFacts.update_file_other, AppFacts.remove_path_other,
              AppFacts.update_file_other; auto|].
      split; [reflexivity|]. split; [reflexivity|]. apply AppFacts.update_file_same.
    + match goal with |- context [remove_if_exists pdf ?st] =>
        destruct (AppFacts.remove_if_exists_run pdf st) as (f1 & -> & H1a & H1b) end.
      cbv beta iota.
      match goal with |- context [remove_if_exists tmp ?st] =>
        destruct (AppFacts.remove_if_exists_run tmp st) as (f2 & -> & H2a & H2b) end.
      cbn [world session posts sleeps calls files] in *.
      split; [reflexivity|]. split; [reflexivity|]. split; [reflexivity|].
      split; [rewrite H2b by exact Hpt; exact H1a|].
      split; [intros p Hp1 Hp2; rewrite H2b, H1b, AppFacts.remove_path_other,
              AppFacts.update_file_other; auto|].
      split; [reflexivity|]. split; [reflexivity | exact H2a].
  - match goal with |- context [remove_if_exists pdf ?st] =>
      destruct (AppFacts.remove_if_exists_run pdf st) as (f1 & -> & H1a & H1b) end.
    cbv beta iota.
    match goal with |- context [remove_if_exists tmp ?st] =>
      destruct (AppFacts.remove_if_exists_run tmp st) as (f2 & -> & H2a & H2b) end.
    cbn [world session posts sleeps calls files] in *.
    split; [reflexivity|]. split; [reflexivity|]. split; [reflexivity|].
    split; [rewrite H2b by exact Hpt; exact H1a|].
    split; [intros p Hp1 Hp2; rewrite H2b, H1b; auto|].
    split; [reflexivity|]. split; [reflexivity | exact H2a].
Qed.

Lemma pdfupload_allowed_upload_witness :
  let '(r, s') := pdfupload (fun _ => true) MockMore.parse_pdf (fun f => f) MockMore.exn_str
                    POST (Some {| up_filename := "report.pdf"; up_data := "%PDF-1.7 good" |})
                    "1234" {| world := Mock.w0; session := fun _ => None |} in
  r = Ok (RedirectTo "apikey_entry") /\
  files (world s') "uploads/report.pdf" = None /\
  files (world s') "uploads/text_1234.txt" = Some ("page one" ++ page_separator ++ "page two").
Proof.
  pose proof (pdfupload_allowed_upload (fun _ => true) MockMore.parse_pdf (fun f => f)
                MockMore.exn_str {| up_filename := "report.pdf"; up_data := "%PDF-1.7 good" |}
                "1234" {| world := Mock.w0; session := fun _ => None |}) as H.
  cbv zeta in H. specialize (H ltac:(discriminate) eq_refl ltac:(vm_compute; discriminate)).
  destruct (pdfupload _ _ _ _ _ _ _ _) as [r s'].
  destruct H as (_ & _ & _ & Hpdf & _ & Hr & _ & Htmp).
  split; [exact Hr|]. split; [exact Hpdf | exact Htmp].
Defined.


(** A POST of a file with a non-empty name that does not end in a dot
    and an extension spelling "pdf" in any case is rejected with "File type
    not allowed. Please upload a PDF." and the state left as it was. *)
Theorem pdfupload_rejects_non_pdf (open_ok : string -> bool) (parse_pdf : string -> PdfParse)
    (secure_filename : string -> string) (exn_str : Exn -> string)
    (file : Upload) (uuid : string) (s : AppState) :
  up_filename file <> EmptyString ->
  (forall base ext, up_filename file = base ++ String dot ext ->
                    contains_char dot ext = false -> lower ext <> "pdf") ->
  pdfupload open_ok parse_pdf secure_filename exn_str POST (Some file) uuid s =
  (Ok (Render "pdfupload.html" (Some "File type not allowed. Please upload a PDF.")), s).
Proof.
  intros Hne Hno. unfold pdfupload.
  destruct (String.eqb (up_filename file) EmptyString) eqn:E0;
    [apply String.eqb_eq in E0; contradiction|].
  destruct (AppFacts.allowed_file_iff (up_filename file)) as (b & Hb & Hiff).
  destruct b.
  - exfalso. destruct (proj1 Hiff eq_refl) as (base & ext & Heq & Hx & Hl).
    exact (Hno base ext Heq Hx Hl).
  - destruct (up_filename file) as [|c0 fn0] eqn:Efn; [contradiction|].
    cbn [Py.str_truthy]. rewrite Hb. reflexivity.
Qed.

Lemma pdfupload_rejects_non_pdf_witness :
  pdfupload (fun _ => true) MockMore.parse_pdf (fun f => f) MockMore.exn_str POST
    (Some {| up_filename := "notes.txt"; up_data := "plain" |}) "1234"
    {| world := Mock.w0; session := fun _ => None |} =
  (Ok (Render "pdfupload.html" (Some "File type not allowed. Please upload a PDF.")),
   {| world := Mock.w0; session := fun _ => None |}).
Proof.
  apply pdfupload_rejects_non_pdf; [discriminate|].
  intros base ext Heq Hx Hl.
  destruct (AppFacts.allowed_file_iff "notes.txt") as (b & Hb & Hiff).
  vm_compute in Hb. injection Hb as <-.
  assert (Hf : false = true) by (apply Hiff; exists base, ext; cbn [up_filename] in Heq; auto).
  discriminate Hf.
Defined.


(** [apikey_entry] changes neither the files nor the session when the
    session holds no temporary path, on a GET, or when the posted key is
    missing or empty. *)
Theorem apikey_entry_no_key_unchanged (json_loads : string -> option Json)
    (transport : nat -> Request -> PostResult) (open_ok : string -> bool)
    (exn_str : Exn -> string) (APP_ROOT : string)
    (method : Method) (form_key : option string) (s : AppState) :
  session s "temp_text_path" = None \/ method = GET \/
  Py.str_truthy (match form_key with Some k => k | None => EmptyString end) = false ->
  exists page, apikey_entry json_loads transport open_ok exn_str APP_ROOT method form_key s
               = (Ok page, s).
Proof.
  intros H. unfold apikey_entry, abind, sess_get. cbv beta iota.
  destruct (session s "temp_text_path") as [p|] eqn:Es; [|eexists; reflexivity].
  destruct H as [H|[->|H]]; [discriminate| eexists; reflexivity|].
  destruct method; [eexists; reflexivity|]. rewrite H. eexists; reflexivity.
Qed.



Lemma apikey_entry_no_key_unchanged_witness :
  exists page,
    apikey_entry Mock.decode (Mock.ok_with "ENV") (fun _ => true) MockMore.exn_str "/app"
      POST (Some EmptyString)
      {| world := Mock.w0; session := fun k => if String.eqb k "temp_text_path"
                                               then Some "uploads/text_1234.txt" else None |}
    = (Ok page,
       {| world := Mock.w0; session := fun k => if String.eqb k "temp_text_path"
                                                then Some "uploads/text_1234.txt" else None |}).
Proof.
  apply apikey_entry_no_key_unchanged. right. right. reflexivity.
Defined.

(** A POST with a non-empty key when the session holds a non-empty
    temporary path [p] (other than the summary file): the route never
    raises; the key is stored in the session and the path popped from it;
    the file at [p] is gone afterwards.  When that file held text, the
    route redirects to [summary] or renders the summary error; when it was
    missing or empty, it redirects to [pdfupload] without calling the
    model. *)
Theorem apikey_entry_consumes_temp_file (json_loads : string -> option Json)
    (transport : nat -> Request -> PostResult) (open_ok : string -> bool)
    (exn_str : Exn -> string) (APP_ROOT : string) (p key : string) (s : AppState) :
  session s "temp_text_path" = Some p -> Py.str_truthy p = true -> Py.str_truthy key = true ->
  p <> FINAL_OUTPUT_FILE APP_ROOT ->
  let '(r, s') := apikey_entry json_loads transport open_ok exn_str APP_ROOT POST (Some key) s in
  files (world s') p = None /\
  session s' = update_session "temp_text_path" None
                 (update_session "gemini_api_key" (Some key) (session s)) /\
  match files (world s) p with
  | Some t =>
      if Py.str_truthy t then
        r = Ok (RedirectTo "summary") \/
        exists e, r = Ok (Render "apikey_entry.html"
          (Some ("Error generating summary. Check API Key validity and try again. ("
                 ++ exn_str e ++ ")")))
      else r = Ok (RedirectTo "pdfupload") /\ posts (world s') = posts (world s) /\
           calls (world s') = calls (world s)
  | None => r = Ok (RedirectTo "pdfupload") /\ world s' = world s
  end.
Proof.
  intros Hs Hp Hk Hpf.
  destruct s as [[ps sl cl fs] sess]. cbn [world session files posts calls] in *.
  unfold apikey_entry, abind at 1, sess_get. cbn [session]. rewrite Hs. cbv beta iota.
  rewrite Hk. cbn [negb].
  unfold abind at 1, sess_set. cbv beta iota. unfold abind at 1, sess_pop. cbv beta iota.
  cbn [world session].
  replace (update_session "gemini_api_key" (Some key) sess "temp_text_path") with (Some p)
    by (unfold update_session; simpl; symmetry; exact Hs).
  unfold read_and_remove. rewrite Hp.
  unfold abind at 2, on_world, file_exists. cbn [world session files].
  destruct (fs p) as [t|] eqn:Ef.
  - cbv beta iota. unfold atry, abind, read_file, remove_file, aret. cbn [world session files].
    do 4 (rewrite ?Ef; cbv beta iota; cbn [world session files posts calls sleeps]).
    rewrite AppFacts.universal_newlines_truthy.
    destruct (Py.str_truthy t) eqn:Et; cbn [negb].
    + cbn [world session].
      pose proof (SummaryFacts.generate_summary_frame json_loads transport open_ok
                    (universal_newlines t) (FINAL_OUTPUT_FILE APP_ROOT) key
                    {| posts := ps; sleeps := sl; calls := cl; files := remove_path p fs |})
        as Hfr.
      revert Hfr.
      destruct (generate_summary json_loads transport open_ok (universal_newlines t)
                  (FINAL_OUTPUT_FILE APP_ROOT) key
                  {| posts := ps; sleeps := sl; calls := cl; files := remove_path p fs |})
        as [[v|e] w']; intros Hfr.
      * cbn. split; [rewrite (proj1 Hfr p Hpf); apply AppFacts.remove_path_same|].
        split; [reflexivity | left; reflexivity].
      * cbn. split; [rewrite (proj1 Hfr p Hpf); apply AppFacts.remove_path_same|].
        split; [reflexivity | right; exists e; reflexivity].
    + cbn. split; [apply AppFacts.remove_path_same|]. auto.
  - unfold atry, abind, read_file, remove_file, aret.
    do 4 (rewrite ?Ef; cbv beta iota; cbn [world session files posts calls sleeps]).
    cbn [Py.str_truthy negb].
    split; [exact Ef|]. split; [reflexivity|]. split; reflexivity.
Qed.


Lemma apikey_entry_consumes_temp_file_witness :
  let s := {| world := {| posts := []; sleeps := []; calls := [];
                          files := fun p => if String.eqb p "uploads/text_1234.txt"
                                            then Some "Short text." else None |};
              session := fun k => if String.eqb k "temp_text_path"
                                  then Some "uploads/text_1234.txt" else None |} in
  let '(r, s') := apikey_entry Mock.decode (Mock.ok_with "ENV") (fun _ => true)
                    MockMore.exn_str "/app" POST (Some "KEY") s in
  files (world s') "uploads/text_1234.txt" = None /\
  (r = Ok (RedirectTo "summary") \/
   exists e, r = Ok (Render "apikey_entry.html"
     (Some ("Error generating summary. Check API Key validity and try again. ("
            ++ MockMore.exn_str e ++ ")")))).
Proof.
  intros s.
  pose proof (apikey_entry_consumes_temp_file Mock.decode (Mock.ok_with "ENV") (fun _ => true)
                MockMore.exn_str "/app" "uploads/text_1234.txt" "KEY" s
                eq_refl eq_refl eq_refl ltac:(vm_compute; discriminate)) as H.
  destruct (apikey_entry _ _ _ _ _ _ _ s) as [r s'].
  destruct H as (Hf & _ & Hr). split; [exact Hf | exact Hr].
Defined.

(** Round trip: whenever [apikey_entry] redirects to [summary], the
    summary file exists and the [summary] page shows its content as
    text-mode reading returns it (with universal newlines), not an error
    message, changing nothing. *)
Theorem apikey_entry_then_summary (json_loads : string -> option Json)
    (transport : nat -> Request -> PostResult) (open_ok : string -> bool)
    (exn_str : Exn -> string) (APP_ROOT : string)
    (method : Method) (form_key : option string) (s : AppState) (w' : World)
    (sess' : string -> option string) :
  apikey_entry json_loads transport open_ok exn_str APP_ROOT method form_key s
    = (Ok (RedirectTo "summary"), {| world := w'; session := sess' |}) ->
  exists t, files w' (FINAL_OUTPUT_FILE APP_ROOT) = Some t /\
    summary exn_str APP_ROOT {| world := w'; session := sess' |}
    = (Ok (ShowSummary (universal_newlines t)), {| world := w'; session := sess' |}).
Proof.
  unfold apikey_entry, abind at 1, sess_get. cbv beta iota.
  destruct (session s "temp_text_path"); [|discriminate].
  destruct method; [discriminate|].
  destruct (negb _); [discriminate|].
  unfold abind at 1. destruct (sess_set _ _ s) as [[[]|e] s1]; [|discriminate].
  unfold abind at 1. destruct (sess_pop _ s1) as [[tp|e] s2]; [|discriminate].
  unfold abind at 1. destruct (read_and_remove tp s2) as [[t|e] s3]; [|discriminate].
  destruct (negb (Py.str_truthy t)); [discriminate|].
  unfold atry, abind, on_world, aret.
  destruct (generate_summary _ _ _ _ _ _ (world s3)) as [[v|e] w3] eqn:Eg; [|discriminate].
  intros H. injection H as <- <-.
  destruct (AppFacts.gs_ok_file _ _ _ _ _ _ _ _ _ Eg) as (txt & -> & Hf).
  exists txt. split; [exact Hf|].
  unfold summary, atry, abind, on_world, read_file, aret. cbn [world session]. rewrite Hf.
  reflexivity.
Qed.


Lemma apikey_entry_then_summary_witness :
  let s := {| world := {| posts := []; sleeps := []; calls := [];
                          files := fun p => if String.eqb p "uploads/text_1234.txt"
                                            then Some "Short text." else None |};
              session := fun k => if String.eqb k "temp_text_path"
                                  then Some "uploads/text_1234.txt" else None |} in
  let '(r, s') := apikey_entry Mock.decode (Mock.ok_with "ENV") (fun _ => true)
                    MockMore.exn_str "/app" POST (Some "KEY") s in
  r = Ok (RedirectTo "summary") /\
  exists t, files (world s') (FINAL_OUTPUT_FILE "/app") = Some t /\
    summary MockMore.exn_str "/app" s' = (Ok (ShowSummary (universal_newlines t)), s').
Proof.
  intros s.
  assert (Hr : fst (apikey_entry Mock.decode (Mock.ok_with "ENV") (fun _ => true)
                      MockMore.exn_str "/app" POST (Some "KEY") s) = Ok (RedirectTo "summary"))
    by (vm_compute; reflexivity).
  destruct (apikey_entry _ _ _ _ _ _ _ s) as [r [w' sess']] eqn:E.
  cbn [fst] in Hr. subst r. split; [reflexivity|].
  exact (apikey_entry_then_summary Mock.decode (Mock.ok_with "ENV") (fun _ => true)
           MockMore.exn_str "/app" POST (Some "KEY") s w' sess' E).
Defined.

(** [generate_quiz] never raises (every exception becomes an error in
    [quiz_json]) and changes neither the session nor any file. *)
Theorem generate_quiz_never_raises (json_loads : string -> option Json)
    (transport : nat -> Request -> PostResult) (exn_str : Exn -> string)
    (py_int : string -> Res Z) (APP_ROOT : string)
    (num_field diff_field : option string) (s : AppState) :
  let '(r, s') := generate_quiz json_loads transport exn_str py_int APP_ROOT
                    num_field diff_field s in
  (exists quiz_json, r = Ok (ShowQuiz quiz_json)) /\
  session s' = session s /\ files (world s') = files (world s).
Proof.
  unfold generate_quiz, abind at 1, sess_get. cbv beta iota.
  destruct (negb _); [split; [eexists; reflexivity | auto]|].
  unfold atry, abind, on_world, read_file, alift, araise, aret.
  destruct (files (world s) (FINAL_OUTPUT_FILE APP_ROOT)) as [raw|]; cbv beta iota;
    [|split; [eexists; reflexivity | auto]].
  cbn [world session].
  destruct (negb (Py.str_truthy (Py.strip (universal_newlines raw)))); [split; [eexists; reflexivity | auto]|].
  destruct (py_int _) as [n|e]; [|split; [eexists; reflexivity | auto]].
  match goal with |- context [create_quiz_from_text ?j ?t ?a ?b ?c ?d ?w] =>
    pose proof (AppFacts.cq_files j t a b c d w) as Hf end.
  revert Hf. destruct (create_quiz_from_text _ _ _ _ _ _ _) as [[q|e] w1]; intros Hf;
    cbn [world session]; (split; [eexists; reflexivity | auto]).
Qed.


(** With an API key in the session, [generate_quiz] on a missing summary
    file reports the [FileNotFoundError], and on a summary that is blank
    after [strip] reports the "Summary file empty" [ValueError]; it posts
    nothing and leaves the state as it was. *)
Theorem generate_quiz_needs_summary (json_loads : string -> option Json)
    (transport : nat -> Request -> PostResult) (exn_str : Exn -> string)
    (py_int : string -> Res Z) (APP_ROOT : string)
    (num_field diff_field : option string) (w : World) (sess : string -> option string)
    (key : string) :
  sess "gemini_api_key" = Some key -> Py.str_truthy key = true ->
  match files w (FINAL_OUTPUT_FILE APP_ROOT) with
  | None => True
  | Some t => Py.str_truthy (Py.strip t) = false
  end ->
  generate_quiz json_loads transport exn_str py_int APP_ROOT num_field diff_field
    {| world := w; session := sess |} =
  (Ok (quiz_error ("Quiz generation failed: " ++
         exn_str (match files w (FINAL_OUTPUT_FILE APP_ROOT) with
                  | None => OSError
                  | Some _ => ValueError summary_empty_msg
                  end))),
   {| world := w; session := sess |}).
Proof.
  intros Hs Hk Hf. unfold generate_quiz, abind at 1, sess_get. cbn [session]. rewrite Hs, Hk.
  cbn [negb]. unfold atry, abind, on_world, read_file, alift, araise, aret. cbn [world session].
  destruct (files w (FINAL_OUTPUT_FILE APP_ROOT)) as [t|]; [|reflexivity].
  rewrite (AppFacts.strip_blank_universal_newlines t Hf). reflexivity.
Qed.


Lemma generate_quiz_needs_summary_witness :
  generate_quiz Mock.decode (Mock.ok_with "ENV-QUIZ") MockMore.exn_str MockMore.py_int "/app"
    None None
    {| world := Mock.w0; session := fun k => if String.eqb k "gemini_api_key"
                                             then Some "KEY" else None |} =
  (Ok (quiz_error ("Quiz generation failed: " ++ MockMore.exn_str OSError)),
   {| world := Mock.w0; session := fun k => if String.eqb k "gemini_api_key"
                                            then Some "KEY" else None |}).
Proof.
  exact (generate_quiz_needs_summary Mock.decode (Mock.ok_with "ENV-QUIZ") MockMore.exn_str
           MockMore.py_int "/app" None None Mock.w0
           (fun k => if String.eqb k "gemini_api_key" then Some "KEY" else None) "KEY"
           eq_refl eq_refl I).
Defined.

(** After the homepage (which pops both session keys, keeping the files),
    [apikey_entry] sends any request back to [pdfupload] and
    [generate_quiz] reports the missing API key, whatever the state was. *)
Theorem homepage_resets_session (json_loads : string -> option Json)
    (transport : nat -> Request -> PostResult) (open_ok : string -> bool)
    (exn_str : Exn -> string) (py_int : string -> Res Z) (APP_ROOT : string)
    (method : Method) (form_key num_field diff_field : option string) (s : AppState) :
  let '(r, s1) := homepage s in
  r = Ok (Render "homepage.html" None) /\ world s1 = world s /\
  apikey_entry json_loads transport open_ok exn_str APP_ROOT method form_key s1
    = (Ok (RedirectTo "pdfupload"), s1) /\
  generate_quiz json_loads transport exn_str py_int APP_ROOT num_field diff_field s1
    = (Ok (quiz_error "API Key is missing. Please restart the process from the upload page."), s1).
Proof.
  unfold homepage, abind, sess_pop, aret. cbn [world session].
  split; [reflexivity|]. split; [reflexivity|]. split; reflexivity.
Qed.
